(** * rbl_pipe_houdini: menus, context resolution, cascading updates,
      USD publish node and validator ordering

    A shallow embedding of the Python sources

    - [menu/nodemenu.py]           (class [HoudiniHDAMenu])
    - [shotgun/sgmenu.py]          (class [SGMenu])
    - [shotgun/context.py]         (class [HoudiniSGContext])
    - [shotgun/node.py]            (class [ShotgunNode])
    - [shotgun/usdpublishnode.py]  (class [ShotgunUSDPublishNode])
    - [pyblish/plugins/*.py], [pyblish/nodevalidator.py]

    Python objects are records, attribute and parameter stores are finite
    maps, and a method is a function from the object state to a result
    (a value or a raised exception) together with the state it leaves. *)

From Stdlib Require Import ZArith QArith Lqa String Ascii List Lia.
From stdpp Require Import base gmap strings list pretty.

Open Scope string_scope.
Open Scope Z_scope.
Open Scope list_scope.

(** ** Python values *)

(** The values that flow through the code: [None], integers and strings. *)
Inductive PyVal : Type :=
| PyNone
| PyInt (z : Z)
| PyStr (s : string).

#[global] Instance PyVal_eq_dec : EqDecision PyVal.
Proof. solve_decision. Defined.

(** A Python [dict] with string keys, as returned by the tracking service. *)
Abbreviation dict := (gmap string PyVal).

(** The exceptions the modelled code can raise. *)
Inductive Exc : Type :=
| AttributeError
| IndexError
| TypeError
| ValueError
| UnboundLocalError
| RuntimeError (msg : string)
| OperationFailed
| SgtkTemplateNotFoundException.

#[global] Instance Exc_eq_dec : EqDecision Exc.
Proof. solve_decision. Defined.

Inductive Res (A : Type) : Type :=
| Ok (a : A)
| Raise (e : Exc).

Arguments Ok {A} a.
Arguments Raise {A} e.

(** [bool(v)]: [None], [0] and the empty string are false. *)
Definition py_truthy (v : PyVal) : bool :=
  match v with
  | PyNone => false
  | PyInt z => negb (Z.eqb z 0)
  | PyStr s => negb (String.eqb s "")
  end.

(** [str(v)]. *)
Definition py_str (v : PyVal) : string :=
  match v with
  | PyNone => "None"
  | PyInt z => pretty z
  | PyStr s => s
  end.

(** [d.get(k)]: the value, or [None] when the key is missing. *)
Definition dict_get (d : dict) (k : string) : PyVal :=
  default PyNone (d !! k).

(** *** [int(v)] *)

Definition is_space (c : ascii) : bool :=
  let n := nat_of_ascii c in
  (Nat.eqb n 32 || (Nat.leb 9 n && Nat.leb n 13))%bool.

Fixpoint lstrip (l : list ascii) : list ascii :=
  match l with
  | c :: r => if is_space c then lstrip r else l
  | [] => []
  end.

Definition strip (l : list ascii) : list ascii :=
  rev (lstrip (rev (lstrip l))).

Definition digit_val (c : ascii) : option Z :=
  let n := nat_of_ascii c in
  if (Nat.leb 48 n && Nat.leb n 57)%bool then Some (Z.of_nat (n - 48)) else None.

(** Decimal digits, with single underscores allowed between digits. *)
Fixpoint parse_digits (l : list ascii) (acc : Z) (prev_digit : bool) : option Z :=
  match l with
  | [] => if prev_digit then Some acc else None
  | c :: r =>
      if Ascii.eqb c "_"%char
      then (if prev_digit then parse_digits r acc false else None)
      else match digit_val c with
           | Some d => parse_digits r (acc * 10 + d) true
           | None => None
           end
  end.

Definition parse_int (s : string) : option Z :=
  match strip (list_ascii_of_string s) with
  | c :: r =>
      if Ascii.eqb c "-"%char then Z.opp <$> parse_digits r 0 false
      else if Ascii.eqb c "+"%char then parse_digits r 0 false
      else parse_digits (c :: r) 0 false
  | [] => None
  end.

(** [int(v)]: the identity on integers, a decimal parse on strings
    ([ValueError] when the text is not a number), [TypeError] on [None].
    The text is read as ASCII: white space and digits outside ASCII,
    which [int] also accepts, are not recognised here, so every text that
    [int] rejects is rejected and a converted value is the one [int]
    gives. *)
Definition py_int (v : PyVal) : Res Z :=
  match v with
  | PyInt z => Ok z
  | PyStr s => match parse_int s with Some z => Ok z | None => Raise ValueError end
  | PyNone => Raise TypeError
  end.

Definition Res_bind {A B} (r : Res A) (k : A -> Res B) : Res B :=
  match r with
  | Ok a => k a
  | Raise e => Raise e
  end.

Notation "'let+' x ':=' r 'in' k" := (Res_bind r (fun x => k))
  (at level 10, x name, r at level 100, k at level 200).

(** ** Object state *)

(** What the code does to the world outside its own objects: parameter
    writes, button presses and calls to the template and publish services. *)
Inductive Event : Type :=
| ParmSet (parm : string) (v : string)
| PressButton (parm : string)
| ValidateTemplateList (templates : list PyVal)
| NextVersionFromTemplateList (templates : list PyVal) (task_id : Z)
| OutputPathFromTemplate (template : PyVal) (task_id : Z) (version : PyVal)
| PublishShotUsd (shot_id : PyVal).

(** The fields of a [HoudiniHDAMenu]: the flat list
    [key0, label0, key1, label1, ...] and the in-memory value. *)
Record Menu : Type := mkMenu {
  menu : list string;
  value : PyVal
}.

(** A [ShotgunNode] together with the [hou.Node] it wraps.  [parms] maps a
    parameter name to what [eval()] gives (a missing name is a parameter
    that does not exist); [editable] is [isEditableInsideLockedHDA()];
    [menus] holds the menu objects by parameter name ([sg_asset_menus]
    and [sg_shot_menus] share their objects and are looked up one after
    the other by [get_menu], so one map stands for both). *)
Record Node : Type := mkNode {
  parms : gmap string PyVal;
  editable : bool;
  menus : gmap string Menu;
  asset_templates : list PyVal;
  shot_templates : list PyVal;
  missing_template : bool;
  output_version : PyVal;
  output_path : PyVal;
  output_root : PyVal;
  trace : list Event
}.

Definition with_parms (f : gmap string PyVal -> gmap string PyVal) (st : Node) : Node :=
  mkNode (f (parms st)) (editable st) (menus st) (asset_templates st)
         (shot_templates st) (missing_template st) (output_version st)
         (output_path st) (output_root st) (trace st).

Definition with_menus (f : gmap string Menu -> gmap string Menu) (st : Node) : Node :=
  mkNode (parms st) (editable st) (f (menus st)) (asset_templates st)
         (shot_templates st) (missing_template st) (output_version st)
         (output_path st) (output_root st) (trace st).

Definition with_missing_template (b : bool) (st : Node) : Node :=
  mkNode (parms st) (editable st) (menus st) (asset_templates st)
         (shot_templates st) b (output_version st)
         (output_path st) (output_root st) (trace st).

Definition with_output_version (v : PyVal) (st : Node) : Node :=
  mkNode (parms st) (editable st) (menus st) (asset_templates st)
         (shot_templates st) (missing_template st) v
         (output_path st) (output_root st) (trace st).

Definition with_output_path (v : PyVal) (st : Node) : Node :=
  mkNode (parms st) (editable st) (menus st) (asset_templates st)
         (shot_templates st) (missing_template st) (output_version st)
         v (output_root st) (trace st).

Definition with_output_root (v : PyVal) (st : Node) : Node :=
  mkNode (parms st) (editable st) (menus st) (asset_templates st)
         (shot_templates st) (missing_template st) (output_version st)
         (output_path st) v (trace st).

Definition emit (e : Event) (st : Node) : Node :=
  mkNode (parms st) (editable st) (menus st) (asset_templates st)
         (shot_templates st) (missing_template st) (output_version st)
         (output_path st) (output_root st) (trace st ++ [e]).

(** ** Methods as state transformers that may raise *)

Definition M (A : Type) : Type := Node -> Res A * Node.

Definition ret {A} (a : A) : M A := fun st => (Ok a, st).

Definition raise {A} (e : Exc) : M A := fun st => (Raise e, st).

Definition bind {A B} (m : M A) (k : A -> M B) : M B :=
  fun st =>
    match m st with
    | (Ok a, st') => k a st'
    | (Raise e, st') => (Raise e, st')
    end.

(** A method that only reads the object. *)
Definition reads {A} (f : Node -> Res A) : M A := fun st => (f st, st).

Definition modify (f : Node -> Node) : M unit := fun st => (Ok tt, f st).

Notation "'let*' x ':=' m 'in' k" := (bind m (fun x => k))
  (at level 10, x name, m at level 100, k at level 200).
Notation "m1 ';;' m2" := (bind m1 (fun _ => m2))
  (at level 100, m2 at level 200, right associativity).

(** ** The menu classes ([menu/nodemenu.py], [shotgun/sgmenu.py]) *)

(** [self.menu[::2]]: the keys of a flat menu list. *)
Fixpoint evens (l : list string) : list string :=
  match l with
  | [] => []
  | [k] => [k]
  | k :: _ :: rest => k :: evens rest
  end.

(** The loop of [generate_menu] that appends [str(item.get(name))] and
    [str(item.get(label))] for every record. *)
Fixpoint build_menu (name label : string) (data_dicts : list dict) : list string :=
  match data_dicts with
  | [] => []
  | item :: rest =>
      py_str (dict_get item name) :: py_str (dict_get item label)
        :: build_menu name label rest
  end.

(** [selection in keys], for a list of strings. *)
Definition py_in (selection : PyVal) (keys : list string) : bool :=
  match selection with
  | PyStr s => bool_decide (s ∈ keys)
  | _ => false
  end.

(** The records of a non-editable menu: those whose key is the selection,
    or the first record when the selection is empty ([IndexError] when
    there is no first record). *)
Definition locked_records (name : string) (selection : PyVal)
    (data_dicts : list dict) : Res (list dict) :=
  if py_truthy selection
  then Ok (filter (fun item => PyStr (py_str (dict_get item name)) = selection) data_dicts)
  else match data_dicts with
       | [] => Raise IndexError
       | item :: _ => Ok [item]
       end.

Section Model.

(** [sg_context.parm_value_from_context]: the value the scene context
    gives for a parameter name.  The context methods read the custom task
    parameters, the globals node, the scene path and the tracking service,
    none of which menu generation writes, so it is fixed here. *)
Variable parm_value_from_context : string -> Res PyVal.

(** [HoudiniSGContext.legacy_auto_mode]; [evalAsString()] is [str] of
    the value the parameter holds. *)
Definition legacy_auto_mode (st : Node) : bool :=
  match parms st !! "mode" with
  | Some v => String.eqb (py_str v) "auto"
  | None => false
  end.

(** [SGMenu.is_overriden]; the override parameter of menu [p] is
    ["override_" + p]. *)
Definition is_overriden (p : string) (st : Node) : bool :=
  match parms st !! ("override_" +:+ p) with
  | Some v => bool_decide (v = PyInt 1)
  | None => negb (legacy_auto_mode st)
  end.

(** [HoudiniHDAMenu.get_selection]. *)
Definition base_get_selection (p : string) (st : Node) : Res PyVal :=
  match menus st !! p with
  | None => Raise AttributeError
  | Some m =>
      match parms st !! p with
      | None => Ok PyNone
      | Some selection =>
          if (py_truthy selection
              && negb (bool_decide (selection = PyStr "None")))%bool
          then Ok selection
          else match menu m with
               | k :: _ => Ok (PyStr k)
               | [] => Ok PyNone
               end
      end
  end.

(** [SGMenu.get_selection]. *)
Definition get_selection (p : string) (force : bool) (st : Node) : Res PyVal :=
  match menus st !! p with
  | None => Raise AttributeError
  | Some _ =>
      let overriden := is_overriden p st in
      match parms st !! p with
      | None => Raise AttributeError
      | Some _ =>
          match parm_value_from_context p with
          | Raise e => Raise e
          | Ok selection =>
              if (force && py_truthy selection)%bool
              then Ok (PyStr (py_str selection))
              else if (negb overriden && py_truthy selection)%bool
              then Ok (PyStr (py_str selection))
              else base_get_selection p st
          end
      end
  end.

(** [HoudiniHDAMenu.set_value]. *)
Definition set_value (p : string) (v : PyVal) : M unit :=
  fun st =>
    match menus st !! p with
    | None => (Raise AttributeError, st)
    | Some m =>
        let st1 := with_menus (insert p (mkMenu (menu m) v)) st in
        match parms st !! p with
        | None => (Raise AttributeError, st1)
        | Some _ =>
            if editable st
            then (Ok tt, emit (ParmSet p (py_str v))
                           (with_parms (insert p (PyStr (py_str v))) st1))
            else (Ok tt, st1)
        end
    end.

(** The assignment [self.menu = ...]. *)
Definition set_menu (p : string) (new_menu : list string) : M unit :=
  fun st =>
    match menus st !! p with
    | None => (Raise AttributeError, st)
    | Some m => (Ok tt, with_menus (insert p (mkMenu new_menu (value m))) st)
    end.

(** [HoudiniHDAMenu.generate_menu], on an [SGMenu].  The closing
    [showExpression] call only redraws the parameter. *)
Definition generate_menu (p : string) (data_dicts : list dict)
    (name label : string) (reverse force : bool) : M unit :=
  let* selection := reads (get_selection p force) in
  let* is_editable := reads (fun st => Ok (editable st)) in
  let* data_dicts :=
    (if is_editable then ret data_dicts
     else reads (fun _ => locked_records name selection data_dicts)) in
  let data_dicts := if reverse then rev data_dicts else data_dicts in
  let new_menu := build_menu name label data_dicts in
  set_menu p new_menu ;;
  if py_in selection (evens new_menu)
  then set_value p (PyStr (py_str selection))
  else match new_menu with
       | k :: _ => set_value p (PyStr k)
       | [] => ret tt
       end.

(** The value [generate_menu] hands to [set_value]: the selection when it
    is among the new keys, else the first new key, else nothing. *)
Definition chosen (selection : PyVal) (new_menu : list string) : option PyVal :=
  if py_in selection (evens new_menu) then Some (PyStr (py_str selection))
  else match new_menu with
       | k :: _ => Some (PyStr k)
       | [] => None
       end.

(** The node after [generate_menu] has stored [new_menu] in menu [p] and
    made its choice for [selection]. *)
Definition regenerated (p : string) (new_menu : list string)
    (selection : PyVal) (st : Node) : Node :=
  let old_value := from_option value PyNone (menus st !! p) in
  match chosen selection new_menu with
  | None => with_menus (insert p (mkMenu new_menu old_value)) st
  | Some v =>
      let st1 := with_menus (insert p (mkMenu new_menu v)) st in
      if editable st
      then emit (ParmSet p (py_str v)) (with_parms (insert p (PyStr (py_str v))) st1)
      else st1
  end.

(** ** The scene context ([shotgun/context.py]) *)

(** [node.evalParm(name)]: [hou.OperationFailed] when the parameter does
    not exist. *)
Definition evalParm (ps : gmap string PyVal) (name : string) : Res PyVal :=
  match ps !! name with
  | Some v => Ok v
  | None => Raise OperationFailed
  end.

(** A [HoudiniSGContext]: the node it serves, the globals node it cached
    when it was built, the globals nodes the scene holds now and the path
    of the scene file. *)
Record Context : Type := mkContext {
  sg_node : Node;
  globals_node : option (gmap string PyVal);
  scene_globals : list (gmap string PyVal);
  hip_path : string
}.

(** The tracking service ([sg_load]) and the template service
    ([sg_template]), as far as the context uses them. *)
Variable asset_id_from_name : PyVal -> PyVal.
Variable shot_id_from_name : PyVal -> PyVal.
Variable task_id_from_name : PyVal -> PyVal -> PyVal -> PyVal.
Variable task_id_from_path : string -> PyVal.

(** [get_globals_node]: the first globals node of the scene, if any. *)
Definition get_globals_node (c : Context) : option (gmap string PyVal) :=
  head (scene_globals c).

(** The [try] block of [task_id_from_custom]: [Some v] when it returns
    [v], [None] when it runs to its end. *)
Definition task_id_from_custom_try (c : Context) : Res (option PyVal) :=
  let+ flag := evalParm (parms (sg_node c)) "override_custom_taskid" in
  if py_truthy flag
  then let+ v := evalParm (parms (sg_node c)) "custom_taskid" in
       let+ z := py_int v in
       Ok (Some (PyInt z))
  else Ok None.

(** [task_id_from_custom]: only [hou.OperationFailed] is caught. *)
Definition task_id_from_custom (c : Context) : Res PyVal :=
  match task_id_from_custom_try c with
  | Ok (Some v) => Ok v
  | Ok None => Ok PyNone
  | Raise OperationFailed => Ok PyNone
  | Raise e => Raise e
  end.

(** [task_id_from_globals].  The locals [asset_id] and [shot_id] are
    [None] here while they are unbound; reading an unbound local raises
    [UnboundLocalError]. *)
Definition task_id_from_globals (c : Context) : Res PyVal :=
  match get_globals_node c with
  | None => Ok PyNone
  | Some _ =>
      match globals_node c with
      | None => Raise AttributeError
      | Some g =>
          let+ context := evalParm g "context" in
          let+ task_name := evalParm g "task" in
          let+ locals :=
            (if bool_decide (context = PyStr "asset")
             then let+ asset_name := evalParm g "asset" in
                  Ok (Some (Some (asset_id_from_name asset_name), None))
             else if bool_decide (context = PyStr "shot")
             then let+ shot_name := evalParm g "shot" in
                  Ok (Some (None, Some (shot_id_from_name shot_name)))
             else Ok None) in
          match locals with
          | None => Ok PyNone
          | Some (Some asset_id, Some shot_id) =>
              Ok (task_id_from_name task_name asset_id shot_id)
          | Some _ => Raise UnboundLocalError
          end
      end
  end.

(** [task_id_from_hip]. *)
Definition task_id_from_hip (c : Context) : Res PyVal :=
  Ok (task_id_from_path (hip_path c)).

(** [raw_task_id]. *)
Definition raw_task_id (c : Context) : Res PyVal :=
  let+ custom_task_id := task_id_from_custom c in
  if py_truthy custom_task_id then Ok custom_task_id
  else match globals_node c with
       | Some _ => task_id_from_globals c
       | None => task_id_from_hip c
       end.

(** ** The Shotgun node ([shotgun/node.py]) *)

(** [get_parm_menu_value]: [get_menu(p).get_selection()]. *)
Definition get_parm_menu_value (p : string) (st : Node) : Res PyVal :=
  get_selection p false st.

(** [in_asset_mode] and [in_shot_mode]. *)
Definition in_asset_mode (st : Node) : Res bool :=
  let+ selected_template := get_parm_menu_value "template" st in
  Ok (bool_decide (selected_template ∈ asset_templates st)).

Definition in_shot_mode (st : Node) : Res bool :=
  let+ selected_template := get_parm_menu_value "template" st in
  Ok (bool_decide (selected_template ∈ shot_templates st)).

(** [selected_task]. *)
Definition selected_task (st : Node) : Res PyVal :=
  let+ asset_mode := in_asset_mode st in
  if asset_mode then get_selection "task" false st
  else let+ shot_mode := in_shot_mode st in
       if shot_mode then get_selection "shot_task" false st
       else Raise (RuntimeError "Invalid mode. Must be either asset or shot.").

(** [selected_template].  The items of the template parameter's menu are
    the keys of the template menu object, which the parameter's menu
    script reads through [get_menu_list]. *)
Definition selected_template (st : Node) : Res PyVal :=
  let+ template := evalParm (parms st) "template" in
  if py_truthy template then Ok template
  else match evens (from_option menu [] (menus st !! "template")) with
       | item :: _ => Ok (PyStr item)
       | [] => Ok PyNone
       end.

(** ** The USD publish node ([shotgun/usdpublishnode.py]) *)

(** [os.path.dirname] for POSIX paths. *)
Fixpoint drop_to_slash (l : list ascii) : list ascii :=
  match l with
  | c :: r => if Ascii.eqb c "/"%char then l else drop_to_slash r
  | [] => []
  end.

Fixpoint drop_slashes (l : list ascii) : list ascii :=
  match l with
  | c :: r => if Ascii.eqb c "/"%char then drop_slashes r else l
  | [] => []
  end.

Definition dirname (path : string) : string :=
  let head := drop_to_slash (rev (list_ascii_of_string path)) in
  string_of_list_ascii
    (rev (match drop_slashes head with
          | [] => head
          | stripped => stripped
          end)).

(** The template service ([sg_template]) and the USD build library.
    [validate_template_list] gives the exception it raises, if any. *)
Variable validate_template_list : list PyVal -> option Exc.
Variable next_version_from_template_list : list PyVal -> Z -> PyVal.
Variable output_path_from_template : PyVal -> Z -> PyVal -> string.
Variable shot_id_from_task_id : Z -> PyVal.

(** [node.parm(name).pressButton()]. *)
Definition pressButton (name : string) : M unit :=
  fun st =>
    match parms st !! name with
    | None => (Raise AttributeError, st)
    | Some _ => (Ok tt, emit (PressButton name) st)
    end.

(** [update_output_path]. *)
Definition update_output_path : M unit :=
  let* missing := reads (fun st => Ok (missing_template st)) in
  if missing then ret tt
  else
    let* template_name := reads selected_template in
    modify (emit (ValidateTemplateList [template_name])) ;;
    match validate_template_list [template_name] with
    | Some SgtkTemplateNotFoundException =>
        modify (with_missing_template true)
    | Some e => raise e
    | None =>
        let* task_id := reads selected_task in
        if negb (py_truthy task_id) then ret tt
        else
          let* task := reads (fun _ => py_int task_id) in
          modify (emit (NextVersionFromTemplateList [template_name] task)) ;;
          let version := next_version_from_template_list [template_name] task in
          modify (with_output_version version) ;;
          modify (emit (OutputPathFromTemplate template_name task version)) ;;
          let path := output_path_from_template template_name task version in
          modify (with_output_path (PyStr path)) ;;
          modify (with_output_root (PyStr (dirname path))) ;;
          pressButton "output_version" ;;
          pressButton "output_root" ;;
          pressButton "lopoutput"
    end.

(** [shotusd.publish_shot_usd]. *)
Definition publish_shot_usd (shot_id : PyVal) : M unit :=
  modify (emit (PublishShotUsd shot_id)).

(** [auto_generate_shot_usd].  The two statements after the [raise] sit
    in the same block as the [raise]. *)
Definition auto_generate_shot_usd : M unit :=
  let* task := reads selected_task in
  let* task_id := reads (fun _ => py_int task) in
  let* shot_mode := reads in_shot_mode in
  if negb shot_mode
  then
    raise (A := unit) (RuntimeError "Can only be run when operating in shot mode.") ;;
    let shot_id := shot_id_from_task_id task_id in
    publish_shot_usd shot_id
  else ret tt.

(** ** Cascading menu updates ([shotgun/node.py]) *)

(** The queries of the tracking service ([sg_load]) that fill the menus.
    The service answers a query the same way each time it is asked. *)
Variable get_asset_types : list dict.
Variable get_assets : PyVal -> list dict.
Variable get_asset_steps : PyVal -> list dict.
Variable get_asset_tasks : PyVal -> PyVal -> list dict.
Variable get_sequences : list dict.
Variable get_shots : PyVal -> list dict.
Variable get_shot_steps : PyVal -> list dict.
Variable get_shot_tasks : PyVal -> PyVal -> list dict.
Variable get_versions : PyVal -> PyVal -> list dict.
Variable published_file_type_code : PyVal.

(** [if v: v = int(v)]. *)
Definition int_if_set (v : PyVal) : Res PyVal :=
  if py_truthy v then let+ z := py_int v in Ok (PyInt z) else Ok v.

(** [menus_updated] of [ShotgunNode] does nothing. *)
Definition menus_updated : M unit := ret tt.

(** [update_version_menu]. *)
Definition update_version_menu (force : bool) : M unit :=
  let* latest := reads (fun st => Ok (parms st !! "latest")) in
  match latest with
  | Some latest_value =>
      if (force || negb (py_truthy latest_value))%bool
      then
        let* asset_mode := reads in_asset_mode in
        let* task :=
          (if asset_mode then reads (get_selection "task" false)
           else let* shot_mode := reads in_shot_mode in
                if shot_mode then reads (get_selection "shot_task" false)
                else raise (RuntimeError "Invalid mode. Must be either asset or shot.")) in
        let* task_id := reads (fun _ => py_int task) in
        let versions := get_versions (PyInt task_id) published_file_type_code in
        generate_menu "version" versions "version_number" "version_number" true force
      else ret tt
  | None => ret tt
  end ;;
  menus_updated.

(** [update_task_menu]. *)
Definition update_task_menu (force : bool) : M unit :=
  let* selected_asset := reads (get_parm_menu_value "asset") in
  let* selected_asset := reads (fun _ => int_if_set selected_asset) in
  let* selected_step := reads (get_parm_menu_value "step") in
  let* selected_step := reads (fun _ => int_if_set selected_step) in
  let tasks :=
    if (py_truthy selected_asset && py_truthy selected_step)%bool
    then get_asset_tasks selected_asset selected_step
    else [] in
  generate_menu "task" tasks "id" "content" false force ;;
  update_version_menu false.

(** [update_step_menu]. *)
Definition update_step_menu (force : bool) : M unit :=
  let* selected_asset := reads (get_parm_menu_value "asset") in
  let* selected_asset := reads (fun _ => int_if_set selected_asset) in
  let steps :=
    if py_truthy selected_asset then get_asset_steps selected_asset else [] in
  generate_menu "step" steps "step.Step.id" "step.Step.code" false force ;;
  update_task_menu force.

(** [update_asset_menu]. *)
Definition update_asset_menu (force : bool) : M unit :=
  let* asset_type := reads (get_parm_menu_value "asset_type") in
  let assets := if py_truthy asset_type then get_assets asset_type else [] in
  generate_menu "asset" assets "id" "code" false force ;;
  update_step_menu force.

(** [update_asset_types_menu]. *)
Definition update_asset_types_menu (force : bool) : M unit :=
  let asset_types := get_asset_types in
  generate_menu "asset_type" asset_types "name" "name" false force ;;
  update_asset_menu force.

(** [update_shot_task_menu]. *)
Definition update_shot_task_menu (force : bool) : M unit :=
  let* selected_shot := reads (get_selection "shot" false) in
  let* selected_step := reads (get_selection "shot_step" false) in
  let* shot_tasks :=
    (if (py_truthy selected_shot && py_truthy selected_step)%bool
     then let* shot := reads (fun _ => py_int selected_shot) in
          let* step := reads (fun _ => py_int selected_step) in
          ret (get_shot_tasks (PyInt shot) (PyInt step))
     else ret []) in
  generate_menu "shot_task" shot_tasks "id" "content" false force ;;
  update_version_menu false.

(** [update_shot_step_menu]. *)
Definition update_shot_step_menu (force : bool) : M unit :=
  let* selected_shot := reads (get_selection "shot" false) in
  let* shot_steps :=
    (if py_truthy selected_shot
     then let* shot := reads (fun _ => py_int selected_shot) in
          ret (get_shot_steps (PyInt shot))
     else ret []) in
  generate_menu "shot_step" shot_steps "step.Step.id" "step.Step.code" false force ;;
  update_shot_task_menu force.

(** [update_shot_menu]. *)
Definition update_shot_menu (force : bool) : M unit :=
  let* selected_sequence := reads (get_selection "sequence" false) in
  let shots := if py_truthy selected_sequence then get_shots selected_sequence else [] in
  generate_menu "shot" shots "id" "code" false force ;;
  update_shot_step_menu force.

(** [update_sequence_menu]. *)
Definition update_sequence_menu (force : bool) : M unit :=
  let sequences := get_sequences in
  generate_menu "sequence" sequences "name" "name" false force ;;
  update_shot_menu force.

(** *** Vocabulary for the cascade *)

(** What [get_selection] reads for menu [q]: the menu object, its
    parameter, its override parameter and the mode parameter. *)
Definition view (q : string) (st : Node)
  : option Menu * option PyVal * option PyVal * option PyVal :=
  (menus st !! q, parms st !! q, parms st !! ("override_" +:+ q), parms st !! "mode").

(** Two nodes show the same menu [q]: same entries, same selection. *)
Definition same_selection (q : string) (s t : Node) : Prop :=
  menu <$> (menus s !! q) = menu <$> (menus t !! q)
  /\ forall force, get_selection q force s = get_selection q force t.

(** The parts of a node that no menu update writes. *)
Definition static_eq (s t : Node) : Prop :=
  editable s = editable t
  /\ asset_templates s = asset_templates t
  /\ shot_templates s = shot_templates t
  /\ parms s !! "latest" = parms t !! "latest".

(** A parameter name that is neither a control parameter nor the
    override parameter of some menu. *)
Definition chain_name (p : string) : Prop :=
  p <> "latest" /\ p <> "mode" /\ forall q, "override_" +:+ q <> p.

(** One link of the cascade: fetch the records from what is selected
    upstream, regenerate menu [p], go on with the rest. *)
Definition stage (fetch : Node -> Res (list dict)) (p name label : string)
    (reverse force : bool) (rest : M unit) : M unit :=
  fun st =>
    match fetch st with
    | Ok data => (generate_menu p data name label reverse force ;; rest) st
    | Raise e => (Raise e, st)
    end.

(** A link that runs only when [cond] holds. *)
Definition guarded (cond : Node -> bool) (T : M unit) : M unit :=
  fun st => if cond st then T st else (Ok tt, st).

(** [s] and [t] agree outside the menus [D]. *)
Definition agree_outside (D : list string) (s t : Node) : Prop :=
  static_eq s t
  /\ forall q, q ∉ D -> forall force, get_selection q force s = get_selection q force t.

(** [T] writes the menus [D] only. *)
Definition frames (D : list string) (T : M unit) : Prop :=
  forall s r s', T s = (r, s') ->
    static_eq s s' /\ forall q, q ∉ D -> view q s' = view q s.

(** Running [T] on a node whose menus [D] are as a first run left them
    shows the same menus again. *)
Definition settles (D : list string) (T : M unit) : Prop :=
  forall s s' t,
    editable s = true ->
    T s = (Ok tt, s') ->
    agree_outside D s t ->
    (forall q, q ∈ D -> view q t = view q s') ->
    exists t', T t = (Ok tt, t') /\ forall q, q ∈ D -> same_selection q t' s'.

Definition respects (D : list string) {A} (fetch : Node -> A) : Prop :=
  forall s t, agree_outside D s t -> fetch s = fetch t.

(** The value [base_get_selection] gives for a menu list and a
    parameter value. *)
Definition base_value (entries : list string) (pv : option PyVal) : PyVal :=
  match pv with
  | None => PyNone
  | Some selection =>
      if (py_truthy selection
          && negb (bool_decide (selection = PyStr "None")))%bool
      then selection
      else match entries with
           | k :: _ => PyStr k
           | [] => PyNone
           end
  end.

(** The value [get_selection] gives, from the context value [cv], the
    flags, the menu entries and the parameter value. *)
Definition selection_of (cv : PyVal) (force overriden : bool)
    (entries : list string) (pv : option PyVal) : PyVal :=
  if (force && py_truthy cv)%bool then PyStr (py_str cv)
  else if (negb overriden && py_truthy cv)%bool then PyStr (py_str cv)
  else base_value entries pv.

(** The parameter value after [generate_menu] on an editable node. *)
Definition parm_after (selection : PyVal) (new_menu : list string)
    (pv : option PyVal) : option PyVal :=
  match chosen selection new_menu with
  | Some v => Some (PyStr (py_str v))
  | None => pv
  end.

(** The records each link of the cascade fetches, as a function of the
    node it reads. *)
Definition fetch_versions (st : Node) : Res (list dict) :=
  let+ asset_mode := in_asset_mode st in
  let+ task :=
    (if asset_mode then get_selection "task" false st
     else let+ shot_mode := in_shot_mode st in
          if shot_mode then get_selection "shot_task" false st
          else Raise (RuntimeError "Invalid mode. Must be either asset or shot.")) in
  let+ task_id := py_int task in
  Ok (get_versions (PyInt task_id) published_file_type_code).

Definition version_wanted (force : bool) (st : Node) : bool :=
  match parms st !! "latest" with
  | Some latest_value => (force || negb (py_truthy latest_value))%bool
  | None => false
  end.

Definition fetch_tasks (st : Node) : Res (list dict) :=
  let+ selected_asset := get_parm_menu_value "asset" st in
  let+ selected_asset := int_if_set selected_asset in
  let+ selected_step := get_parm_menu_value "step" st in
  let+ selected_step := int_if_set selected_step in
  Ok (if (py_truthy selected_asset && py_truthy selected_step)%bool
      then get_asset_tasks selected_asset selected_step
      else []).

Definition fetch_steps (st : Node) : Res (list dict) :=
  let+ selected_asset := get_parm_menu_value "asset" st in
  let+ selected_asset := int_if_set selected_asset in
  Ok (if py_truthy selected_asset then get_asset_steps selected_asset else []).

Definition fetch_assets (st : Node) : Res (list dict) :=
  let+ asset_type := get_parm_menu_value "asset_type" st in
  Ok (if py_truthy asset_type then get_assets asset_type else []).

Definition fetch_shot_tasks (st : Node) : Res (list dict) :=
  let+ selected_shot := get_selection "shot" false st in
  let+ selected_step := get_selection "shot_step" false st in
  if (py_truthy selected_shot && py_truthy selected_step)%bool
  then let+ shot := py_int selected_shot in
       let+ step := py_int selected_step in
       Ok (get_shot_tasks (PyInt shot) (PyInt step))
  else Ok [].

Definition fetch_shot_steps (st : Node) : Res (list dict) :=
  let+ selected_shot := get_selection "shot" false st in
  if py_truthy selected_shot
  then let+ shot := py_int selected_shot in
       Ok (get_shot_steps (PyInt shot))
  else Ok [].

Definition fetch_shots (st : Node) : Res (list dict) :=
  let+ selected_sequence := get_selection "sequence" false st in
  Ok (if py_truthy selected_sequence then get_shots selected_sequence else []).

(** The menus of the asset chain and of the shot chain. *)
Definition asset_chain : list string :=
  ["asset_type"; "asset"; "step"; "task"; "version"].

Definition shot_chain : list string :=
  ["sequence"; "shot"; "shot_step"; "shot_task"; "version"].

(** * Properties *)

(** ** Menus *)

Lemma evens_build_menu name label data :
  evens (build_menu name label data)
  = map (fun item => py_str (dict_get item name)) data.
Proof.
  induction data as [|item rest IH]; simpl; [done|].
  by rewrite IH.
Qed.

Lemma py_in_str selection keys :
  py_in selection keys = true -> PyStr (py_str selection) = selection.
Proof. destruct selection; simpl; congruence. Qed.

(** C8. [set_value(v)] always stores [v] in the menu object; it writes
    [str(v)] to the bound parameter exactly when the node is editable, and
    otherwise leaves every parameter and the outside world untouched. *)
Theorem set_value_spec (p : string) (v : PyVal) (st : Node) (m : Menu) (pv : PyVal) :
  menus st !! p = Some m ->
  parms st !! p = Some pv ->
  exists st',
    set_value p v st = (Ok tt, st')
    /\ value <$> (menus st' !! p) = Some v
    /\ (editable st = true ->
        parms st' = <[p := PyStr (py_str v)]> (parms st)
        /\ trace st' = trace st ++ [ParmSet p (py_str v)])
    /\ (editable st = false ->
        parms st' = parms st /\ trace st' = trace st).
Proof.
  intros Hm Hp. unfold set_value. rewrite Hm, Hp.
  destruct (editable st) eqn:He; eexists; (split; [reflexivity|]); simpl;
    rewrite lookup_insert_eq; simpl; repeat split; congruence.
Qed.

Lemma get_selection_Ok_inv p force st sel :
  get_selection p force st = Ok sel ->
  (exists m, menus st !! p = Some m) /\ (exists pv, parms st !! p = Some pv).
Proof.
  unfold get_selection.
  destruct (menus st !! p); [|done].
  destruct (parms st !! p); [|done]. eauto.
Qed.

(** [generate_menu] in closed form. *)
Lemma generate_menu_eq p data name label reverse force st sel :
  get_selection p force st = Ok sel ->
  generate_menu p data name label reverse force st =
    match (if editable st then Ok data else locked_records name sel data) with
    | Raise e => (Raise e, st)
    | Ok d =>
        (Ok tt, regenerated p (build_menu name label (if reverse then rev d else d)) sel st)
    end.
Proof.
  intros Hsel.
  destruct (get_selection_Ok_inv _ _ _ _ Hsel) as [[m Hm] [pv Hp]].
  assert (Hset : forall new v st1,
             menus st1 = <[p := mkMenu new (value m)]> (menus st) ->
             parms st1 = parms st ->
             set_value p v st1 =
               (Ok tt,
                let st2 := with_menus (insert p (mkMenu new v)) st1 in
                if editable st1
                then emit (ParmSet p (py_str v))
                       (with_parms (insert p (PyStr (py_str v))) st2)
                else st2)).
  { intros new v st1 Hms Hps. unfold set_value.
    rewrite Hms, lookup_insert_eq, Hps, Hp. simpl.
    by destruct (editable st1). }
  assert (Hgen : forall d,
    (let new_menu := build_menu name label (if reverse then rev d else d) in
     set_menu p new_menu ;;
     if py_in sel (evens new_menu)
     then set_value p (PyStr (py_str sel))
     else match new_menu with
          | k :: _ => set_value p (PyStr k)
          | [] => ret tt
          end) st
    = (Ok tt, regenerated p (build_menu name label (if reverse then rev d else d)) sel st)).
  { intros d. simpl.
    set (new := build_menu name label (if reverse then rev d else d)).
    unfold bind, set_menu. rewrite Hm.
    unfold regenerated, chosen. rewrite Hm. simpl.
    destruct (py_in sel (evens new)) eqn:Hin.
    - erewrite Hset by reflexivity. simpl.
      unfold with_menus, with_parms, emit; simpl. rewrite insert_insert_eq.
      by destruct (editable st).
    - destruct new as [|k rest] eqn:Hnew; [done|].
      erewrite Hset by reflexivity. simpl.
      unfold with_menus, with_parms, emit; simpl. rewrite insert_insert_eq.
      by destruct (editable st). }
  unfold generate_menu.
  unfold bind at 1. unfold reads at 1. rewrite Hsel.
  unfold bind at 1. unfold reads at 1.
  destruct (editable st) eqn:He.
  - unfold bind at 1. unfold ret at 1. apply Hgen.
  - unfold bind at 1. unfold reads at 1.
    destruct (locked_records name sel data) as [d|e]; [|done].
    apply Hgen.
Qed.

(** C10. On a node that is not editable, with an empty current selection
    and no input records, [generate_menu] raises [IndexError]: it takes
    [data_dicts[0]] unconditionally. *)
Theorem generate_menu_locked_empty_raises
    (p name label : string) (reverse force : bool) (st : Node) (sel : PyVal) :
  editable st = false ->
  get_selection p force st = Ok sel ->
  py_truthy sel = false ->
  generate_menu p [] name label reverse force st = (Raise IndexError, st).
Proof.
  intros He Hsel Hf.
  rewrite (generate_menu_eq _ _ _ _ _ _ _ _ Hsel), He.
  unfold locked_records. by rewrite Hf.
Qed.

Lemma regenerated_menu p new sel st :
  menus (regenerated p new sel st) !! p
  = Some (mkMenu new (default (from_option value PyNone (menus st !! p)) (chosen sel new))).
Proof.
  unfold regenerated. destruct (chosen sel new); simpl.
  - destruct (editable st); simpl; by rewrite lookup_insert_eq.
  - by rewrite lookup_insert_eq.
Qed.

Lemma regenerated_parms p new sel st :
  parms (regenerated p new sel st)
  = match chosen sel new with
    | Some v => if editable st then <[p := PyStr (py_str v)]> (parms st) else parms st
    | None => parms st
    end.
Proof.
  unfold regenerated. destruct (chosen sel new); simpl; [|done].
  by destruct (editable st).
Qed.

Lemma regenerated_trace p new sel st :
  trace (regenerated p new sel st)
  = match chosen sel new with
    | Some v => if editable st then trace st ++ [ParmSet p (py_str v)] else trace st
    | None => trace st
    end.
Proof.
  unfold regenerated. destruct (chosen sel new); simpl; [|done].
  by destruct (editable st).
Qed.

Lemma evens_head l k ks : evens l = k :: ks -> exists r, l = k :: r.
Proof.
  destruct l as [|a [|b r]]; simpl; intros H; inversion H; eauto.
Qed.

(** C2 (as the code has it).  The selection [generate_menu] carries
    over is [sel], the answer of [get_selection] at its start: the value
    of the context, as text, when that value is set and the call is
    forced or the menu is not overridden; otherwise the key the
    parameter holds, or the first old key when it holds none.  A
    regeneration that returns builds the menu
    from the records (all of them on an editable node), and then: if
    [sel] is among the new keys the menu's value is [sel] and on an
    editable node the parameter is set to it; otherwise the value and the
    parameter become the first new key; and when there is no new entry
    nothing is set: value, parameters and trace are as before. *)
Theorem generate_menu_selection_policy
    (p : string) (data : list dict) (name label : string)
    (reverse force : bool) (st : Node) (sel : PyVal) (m : Menu) :
  get_selection p force st = Ok sel ->
  menus st !! p = Some m ->
  (editable st = true \/ py_truthy sel = true \/ data <> []) ->
  ((forall cv,
      parm_value_from_context p = Ok cv -> py_truthy cv = true ->
      force = true \/ is_overriden p st = false ->
      sel = PyStr (py_str cv))
   /\ (forall cv pv,
       parm_value_from_context p = Ok cv ->
       py_truthy cv = false \/ (force = false /\ is_overriden p st = true) ->
       parms st !! p = Some pv ->
       (py_truthy pv = true -> pv <> PyStr "None" -> sel = pv)
       /\ (py_truthy pv = false \/ pv = PyStr "None" ->
           sel = match menu m with k :: _ => PyStr k | [] => PyNone end)))
  /\ exists st' m' d,
    generate_menu p data name label reverse force st = (Ok tt, st')
    /\ menus st' !! p = Some m'
    /\ (editable st = true -> d = data)
    /\ (editable st = false -> locked_records name sel data = Ok d)
    /\ menu m' = build_menu name label (if reverse then rev d else d)
    /\ evens (menu m')
       = (fun item => py_str (dict_get item name)) <$> (if reverse then rev d else d)
    /\ (py_in sel (evens (menu m')) = true ->
        value m' = sel
        /\ (editable st = true ->
            parms st' = <[p := sel]> (parms st)
            /\ trace st' = trace st ++ [ParmSet p (py_str sel)])
        /\ (editable st = false -> parms st' = parms st /\ trace st' = trace st))
    /\ (py_in sel (evens (menu m')) = false ->
        forall k ks, evens (menu m') = k :: ks ->
        value m' = PyStr k
        /\ (editable st = true ->
            parms st' = <[p := PyStr k]> (parms st)
            /\ trace st' = trace st ++ [ParmSet p k])
        /\ (editable st = false -> parms st' = parms st /\ trace st' = trace st))
    /\ (menu m' = [] ->
        value m' = value m /\ parms st' = parms st /\ trace st' = trace st).
Proof.
  intros Hsel Hm Hret. split.
  { unfold get_selection, base_get_selection in Hsel. rewrite Hm in Hsel.
    destruct (parms st !! p) as [pv|] eqn:Hp; [|done].
    split.
    - intros cv Hcv Ht Hwins. rewrite Hcv, Ht in Hsel.
      destruct Hwins as [Hf | Hov].
      + rewrite Hf in Hsel. simpl in Hsel. congruence.
      + rewrite Hov in Hsel. destruct force; simpl in Hsel; congruence.
    - intros cv pv' Hcv Hkeeps [= <-]. rewrite Hcv in Hsel.
      assert (Hbase : (if (py_truthy pv
                           && negb (bool_decide (pv = PyStr "None")))%bool
                       then Ok pv
                       else match menu m with
                            | [] => Ok PyNone
                            | k :: _ => Ok (PyStr k)
                            end) = Ok sel).
      { destruct Hkeeps as [Hf | [Hforce Hov]].
        - by rewrite Hf, !andb_false_r in Hsel.
        - by rewrite Hforce, Hov in Hsel. }
      clear Hsel. split.
      + intros Ht Hne. rewrite Ht in Hbase.
        rewrite (bool_decide_eq_false_2 _ Hne) in Hbase. simpl in Hbase. congruence.
      + intros Hunset.
        assert (Hb : (py_truthy pv
                      && negb (bool_decide (pv = PyStr "None")))%bool = false).
        { destruct Hunset as [Hf | ->]; [by rewrite Hf|].
          rewrite (bool_decide_eq_true_2 (PyStr "None" = PyStr "None")) by done.
          apply andb_false_r. }
        rewrite Hb in Hbase. destruct (menu m); congruence. }
  rewrite (generate_menu_eq _ _ _ _ _ _ _ _ Hsel).
  assert (Hd : exists d,
    (if editable st then Ok data else locked_records name sel data) = Ok d).
  { destruct (editable st) eqn:He; [eauto|].
    unfold locked_records. destruct (py_truthy sel) eqn:Ht; [eauto|].
    destruct data; [|eauto]. destruct Hret as [?|[?|?]]; congruence. }
  destruct Hd as [d Hd]. rewrite Hd.
  set (new := build_menu name label (if reverse then rev d else d)).
  eexists _, _, d. split; [reflexivity|]. split; [apply regenerated_menu|].
  split; [intros He; rewrite He in Hd; congruence|].
  split; [intros He; by rewrite He in Hd|].
  split; [done|].
  split; [apply evens_build_menu|].
  rewrite regenerated_parms, regenerated_trace, Hm. simpl.
  unfold chosen. split; [|split].
  - intros Hin. rewrite Hin. simpl.
    rewrite (py_in_str _ _ Hin).
    split; [done|]. split; intros He; by rewrite He.
  - intros Hin k ks Hk. rewrite Hin.
    apply evens_head in Hk as [r ->]. simpl. split; [done|].
    split; intros He; by rewrite He.
  - intros ->. simpl. by destruct sel.
Qed.

(** C3 (as the code has it).  On a node that is not editable, a non-empty
    selection keeps exactly the records whose key is the selection: one
    entry when a single record has that key, none when no record has it;
    an empty selection keeps exactly the first record. *)
Theorem generate_menu_locked
    (p : string) (data : list dict) (name label : string)
    (reverse force : bool) (st : Node) (sel : PyVal) :
  editable st = false ->
  get_selection p force st = Ok sel ->
  let matching :=
    filter (fun item => PyStr (py_str (dict_get item name)) = sel) data in
  (py_truthy sel = true ->
   exists st',
     generate_menu p data name label reverse force st = (Ok tt, st')
     /\ menu <$> (menus st' !! p)
        = Some (build_menu name label (if reverse then rev matching else matching))
     /\ (forall d, matching = [d] ->
         menu <$> (menus st' !! p)
         = Some [py_str (dict_get d name); py_str (dict_get d label)]
         /\ PyStr (py_str (dict_get d name)) = sel)
     /\ (matching = [] -> menu <$> (menus st' !! p) = Some []))
  /\ (py_truthy sel = false ->
      forall d0 rest, data = d0 :: rest ->
      exists st',
        generate_menu p data name label reverse force st = (Ok tt, st')
        /\ menu <$> (menus st' !! p)
           = Some [py_str (dict_get d0 name); py_str (dict_get d0 label)]).
Proof.
  intros He Hsel matching. split.
  - intros Ht. rewrite (generate_menu_eq _ _ _ _ _ _ _ _ Hsel), He.
    unfold locked_records. rewrite Ht. fold matching.
    eexists. split; [reflexivity|]. rewrite regenerated_menu. simpl.
    split; [done|]. split.
    + intros d Hd. rewrite Hd. split; [by destruct reverse|].
      assert (Hin : d ∈ matching) by (rewrite Hd; apply list_elem_of_here).
      unfold matching in Hin. apply list_elem_of_filter in Hin. exact (proj1 Hin).
    + intros ->. by destruct reverse.
  - intros Hf d0 rest ->.
    rewrite (generate_menu_eq _ _ _ _ _ _ _ _ Hsel), He.
    unfold locked_records. rewrite Hf.
    eexists. split; [reflexivity|]. rewrite regenerated_menu. simpl.
    by destruct reverse.
Qed.

(** ** Context resolution *)

(** C1 (as the code has it).  [raw_task_id] returns the custom task id
    when the override gives a non-zero one.  Otherwise the cached globals
    node decides: when there is one, the answer is that of the globals
    source, whatever it is; when there is none, the answer is the task id
    of the scene path.  In particular, with no override, no globals node
    and a path resolving to task 3, the result is 3. *)
Theorem raw_task_id_precedence (c : Context) (custom : PyVal) :
  task_id_from_custom c = Ok custom ->
  (py_truthy custom = true -> raw_task_id c = Ok custom)
  /\ (py_truthy custom = false -> globals_node c <> None ->
      raw_task_id c = task_id_from_globals c)
  /\ (py_truthy custom = false -> globals_node c = None ->
      raw_task_id c = Ok (task_id_from_path (hip_path c)))
  /\ (custom = PyNone -> globals_node c = None ->
      task_id_from_path (hip_path c) = PyInt 3 ->
      raw_task_id c = Ok (PyInt 3)).
Proof.
  intros Hc. unfold raw_task_id. rewrite Hc. simpl.
  split; [|split; [|split]].
  - by intros ->.
  - intros -> Hg. by destruct (globals_node c).
  - by intros -> ->.
  - intros -> -> <-. done.
Qed.

(** X8.  Whenever the globals node declares an asset or a shot context,
    [task_id_from_globals] reads a local it never bound: it raises
    [UnboundLocalError]. *)
Lemma task_id_from_globals_unbound (c : Context) (g g' : gmap string PyVal)
    (context task entity : PyVal) :
  get_globals_node c = Some g' ->
  globals_node c = Some g ->
  g !! "context" = Some context ->
  g !! "task" = Some task ->
  (context = PyStr "asset" /\ g !! "asset" = Some entity
   \/ context = PyStr "shot" /\ g !! "shot" = Some entity) ->
  task_id_from_globals c = Raise UnboundLocalError.
Proof.
  intros Hfresh Hg Hc Ht Hmode.
  unfold task_id_from_globals, evalParm. rewrite Hfresh, Hg, Hc, Ht. simpl.
  destruct Hmode as [[-> He]|[-> He]]; simpl; by rewrite He.
Qed.

(** C6 (what the code does).  With the override enabled and a custom
    task id that is text but not a number, [int] raises [ValueError];
    [task_id_from_custom] catches [hou.OperationFailed] only, so the
    error leaves it, and leaves [raw_task_id], instead of giving way to
    the next source. *)
Theorem task_id_from_custom_parse_failure (c : Context) (flag : PyVal) (s : string) :
  parms (sg_node c) !! "override_custom_taskid" = Some flag ->
  py_truthy flag = true ->
  parms (sg_node c) !! "custom_taskid" = Some (PyStr s) ->
  parse_int s = None ->
  task_id_from_custom c = Raise ValueError
  /\ raw_task_id c = Raise ValueError.
Proof.
  intros Hflag Ht Hv Hparse.
  assert (H : task_id_from_custom c = Raise ValueError).
  { unfold task_id_from_custom, task_id_from_custom_try, evalParm.
    rewrite Hflag. simpl. rewrite Ht, Hv. simpl. by rewrite Hparse. }
  split; [done|]. unfold raw_task_id. by rewrite H.
Qed.

(** ** The USD publish node *)

Lemma update_output_path_missing st :
  missing_template st = true -> update_output_path st = (Ok tt, st).
Proof.
  intros H. unfold update_output_path, bind, reads. by rewrite H.
Qed.

(** C4.  While [missing_template] is set, [update_output_path] returns at
    once and leaves the node as it is: no service call is made (the trace
    is the same) and the output fields keep their values.  A call that
    meets a missing template sets the flag, so every later call, however
    many, is such a no-op. *)
Theorem update_output_path_sticky (st : Node) :
  (missing_template st = true -> update_output_path st = (Ok tt, st))
  /\ (forall template_name,
      missing_template st = false ->
      selected_template st = Ok template_name ->
      validate_template_list [template_name] = Some SgtkTemplateNotFoundException ->
      exists st1,
        update_output_path st = (Ok tt, st1)
        /\ missing_template st1 = true
        /\ output_version st1 = output_version st
        /\ output_path st1 = output_path st
        /\ output_root st1 = output_root st
        /\ forall n,
             Nat.iter n (fun s => snd (update_output_path s)) st1 = st1
             /\ update_output_path
                  (Nat.iter n (fun s => snd (update_output_path s)) st1)
                = (Ok tt, st1)).
Proof.
  split; [apply update_output_path_missing|].
  intros t Hm Ht Hv.
  eexists. split.
  { unfold update_output_path, bind, reads, modify. rewrite Hm, Ht. simpl.
    rewrite Hv. reflexivity. }
  simpl. split; [done|]. split; [done|]. split; [done|]. split; [done|].
  intros n. split.
  - induction n as [|n IH]; [done|].
    simpl. rewrite IH. by rewrite update_output_path_missing.
  - assert (Hn : Nat.iter n (fun s => snd (update_output_path s))
                   (with_missing_template true (emit (ValidateTemplateList [t]) st))
                 = with_missing_template true (emit (ValidateTemplateList [t]) st)).
    { induction n as [|n IH]; [done|].
      simpl. rewrite IH. by rewrite update_output_path_missing. }
    rewrite Hn. by apply update_output_path_missing.
Qed.

(** C9 (as the code has it).  [auto_generate_shot_usd] never publishes
    and never changes the node.  Outside shot mode it always raises: the
    "shot mode" [RuntimeError] once the selected task has been read and
    converted.  In shot mode it returns without publishing whenever the
    selected task converts to an integer. *)
Theorem auto_generate_shot_usd_never_publishes (st : Node) :
  snd (auto_generate_shot_usd st) = st
  /\ (in_shot_mode st = Ok false ->
      exists e, fst (auto_generate_shot_usd st) = Raise e)
  /\ (forall task z,
      in_shot_mode st = Ok false ->
      selected_task st = Ok task -> py_int task = Ok z ->
      fst (auto_generate_shot_usd st)
      = Raise (RuntimeError "Can only be run when operating in shot mode."))
  /\ (forall task z,
      in_shot_mode st = Ok true ->
      selected_task st = Ok task -> py_int task = Ok z ->
      auto_generate_shot_usd st = (Ok tt, st)).
Proof.
  unfold auto_generate_shot_usd, bind, reads, raise, ret.
  split; [|split; [|split]].
  - destruct (selected_task st) as [task|e]; [|done].
    destruct (py_int task) as [z|e]; [|done].
    destruct (in_shot_mode st) as [[|]|e]; done.
  - intros Hs. rewrite Hs.
    destruct (selected_task st) as [task|e]; [|eauto].
    destruct (py_int task) as [z|e]; simpl; eauto.
  - intros task z Hs Ht Hz. by rewrite Ht, Hz, Hs.
  - intros task z Hs Ht Hz. by rewrite Ht, Hz, Hs.
Qed.

(** ** Cascading updates *)

Lemma static_eq_refl s : static_eq s s.
Proof. by repeat split. Qed.

Lemma static_eq_sym s t : static_eq s t -> static_eq t s.
Proof. intros (?&?&?&?). by repeat split. Qed.

Lemma static_eq_trans s t u : static_eq s t -> static_eq t u -> static_eq s u.
Proof.
  intros (?&?&?&?) (?&?&?&?). repeat split; congruence.
Qed.

Lemma get_selection_view q force s t :
  view q s = view q t -> get_selection q force s = get_selection q force t.
Proof.
  unfold view. intros [= Hm Hp Ho Hmode].
  unfold get_selection, base_get_selection, is_overriden, legacy_auto_mode.
  by rewrite Hm, Hp, Ho, Hmode.
Qed.

Lemma same_selection_view q s t : view q s = view q t -> same_selection q s t.
Proof.
  intros H. split.
  - unfold view in H. injection H as Hm _ _ _. by rewrite Hm.
  - intros force. by apply get_selection_view.
Qed.

Lemma same_selection_via q s s' t t' :
  view q s' = view q s -> view q t' = view q t ->
  same_selection q s t -> same_selection q s' t'.
Proof.
  intros Hs Ht [Hm Hsel]. split.
  - unfold view in Hs, Ht. injection Hs as -> _ _ _. injection Ht as -> _ _ _. done.
  - intros force.
    rewrite (get_selection_view _ _ _ _ Hs), (get_selection_view _ _ _ _ Ht).
    apply Hsel.
Qed.

Lemma regenerated_menus_ne p new sel st q :
  q <> p -> menus (regenerated p new sel st) !! q = menus st !! q.
Proof.
  intros Hq. unfold regenerated.
  destruct (chosen sel new); [destruct (editable st)|]; simpl;
    by rewrite lookup_insert_ne.
Qed.

Lemma regenerated_parms_ne p new sel st q :
  q <> p -> parms (regenerated p new sel st) !! q = parms st !! q.
Proof.
  intros Hq. rewrite regenerated_parms.
  destruct (chosen sel new); [destruct (editable st)|]; try done.
  by rewrite lookup_insert_ne.
Qed.

Lemma regenerated_view_ne p new sel st q :
  chain_name p -> q <> p -> view q (regenerated p new sel st) = view q st.
Proof.
  intros (Hl & Hmode & Hov) Hq. unfold view.
  rewrite regenerated_menus_ne by done.
  rewrite !regenerated_parms_ne; [done|done|apply Hov|done].
Qed.

Lemma regenerated_static p new sel st :
  chain_name p -> static_eq st (regenerated p new sel st).
Proof.
  intros (Hl & Hmode & Hov). unfold static_eq.
  rewrite regenerated_parms_ne by done.
  unfold regenerated.
  destruct (chosen sel new); [destruct (editable st) eqn:He|]; simpl; by rewrite ?He.
Qed.

Lemma regenerated_editable p new sel st :
  editable (regenerated p new sel st) = editable st.
Proof.
  unfold regenerated.
  destruct (chosen sel new); [destruct (editable st) eqn:He|]; simpl; by rewrite ?He.
Qed.

(** Where a call of [generate_menu] can leave the node. *)
Lemma generate_menu_state p data name label reverse force st r st' :
  generate_menu p data name label reverse force st = (r, st') ->
  st' = st \/ exists new sel, st' = regenerated p new sel st.
Proof.
  destruct (get_selection p force st) as [sel|e] eqn:Hsel.
  - rewrite (generate_menu_eq _ _ _ _ _ _ _ _ Hsel).
    destruct (if editable st then Ok data else locked_records name sel data);
      intros [= _ <-]; eauto.
  - unfold generate_menu, bind, reads. rewrite Hsel. intros [= _ <-]. by left.
Qed.

Lemma generate_menu_editable p data name label reverse force st :
  editable st = true ->
  generate_menu p data name label reverse force st =
    match get_selection p force st with
    | Ok sel =>
        (Ok tt,
         regenerated p (build_menu name label (if reverse then rev data else data)) sel st)
    | Raise e => (Raise e, st)
    end.
Proof.
  intros He. destruct (get_selection p force st) as [sel|e] eqn:Hsel.
  - by rewrite (generate_menu_eq _ _ _ _ _ _ _ _ Hsel), He.
  - unfold generate_menu, bind, reads. by rewrite Hsel.
Qed.

Lemma get_selection_eq p force st m pv cv :
  menus st !! p = Some m ->
  parms st !! p = Some pv ->
  parm_value_from_context p = Ok cv ->
  get_selection p force st
  = Ok (selection_of cv force (is_overriden p st) (menu m) (Some pv)).
Proof.
  intros Hm Hp Hc. unfold get_selection, base_get_selection, selection_of.
  rewrite Hm, Hp, Hc. simpl.
  destruct (force && py_truthy cv)%bool; [done|].
  destruct (negb (is_overriden p st) && py_truthy cv)%bool; [done|].
  destruct (py_truthy pv && negb (bool_decide (pv = PyStr "None")))%bool; [done|].
  by destruct (menu m).
Qed.

Lemma get_selection_Ok_context p force st sel :
  get_selection p force st = Ok sel -> exists cv, parm_value_from_context p = Ok cv.
Proof.
  unfold get_selection.
  destruct (menus st !! p); [|done]. destruct (parms st !! p); [|done].
  destruct (parm_value_from_context p); [eauto|done].
Qed.

Lemma chosen_nil sel : chosen sel [] = None.
Proof. unfold chosen. by destruct sel. Qed.

Lemma py_in_head k r : py_in (PyStr k) (evens (k :: r)) = true.
Proof.
  simpl. apply bool_decide_eq_true. destruct r; apply list_elem_of_here.
Qed.

Lemma chosen_cons sel k r :
  exists s1, chosen sel (k :: r) = Some (PyStr s1)
             /\ py_in (PyStr s1) (evens (k :: r)) = true.
Proof.
  unfold chosen. destruct (py_in sel (evens (k :: r))) eqn:Hin.
  - exists (py_str sel). split; [done|]. by rewrite (py_in_str _ _ Hin).
  - exists k. split; [done|]. apply py_in_head.
Qed.

Lemma chosen_member s1 new :
  py_in (PyStr s1) (evens new) = true -> chosen (PyStr s1) new = Some (PyStr s1).
Proof. intros H. unfold chosen. by rewrite H. Qed.

(** Regenerating once more from the selection read back does not move
    what the menu shows. *)
Lemma base_value_settled cv force ov entries0 new pv0 :
  let sel_s := selection_of cv force ov entries0 pv0 in
  let pa := parm_after sel_s new pv0 in
  let sel_t := selection_of cv force ov new pa in
  base_value new (parm_after sel_t new pa) = base_value new pa.
Proof.
  intros sel_s pa sel_t.
  destruct new as [|k r].
  { unfold parm_after. by rewrite !chosen_nil. }
  destruct (chosen_cons sel_s k r) as (s1 & Hch & Hin).
  assert (Hpa : pa = Some (PyStr s1)) by (unfold pa, parm_after; by rewrite Hch).
  unfold sel_t, selection_of.
  destruct (force && py_truthy cv)%bool eqn:Hf.
  { unfold sel_s, selection_of in Hch. rewrite Hf in Hch.
    unfold parm_after. by rewrite Hch, Hpa. }
  destruct (negb ov && py_truthy cv)%bool eqn:Ho.
  { unfold sel_s, selection_of in Hch. rewrite Hf, Ho in Hch.
    unfold parm_after. by rewrite Hch, Hpa. }
  rewrite Hpa. unfold base_value at 2.
  destruct (py_truthy (PyStr s1) && negb (bool_decide (PyStr s1 = PyStr "None")))%bool
    eqn:Hok.
  - unfold parm_after. by rewrite (chosen_member _ _ Hin).
  - unfold parm_after. rewrite (chosen_member _ _ (py_in_head k r)). simpl.
    simpl in Hok. rewrite Hok.
    by destruct (negb (String.eqb k "") && negb (bool_decide (PyStr k = PyStr "None")))%bool.
Qed.

Lemma regenerated_parm_editable p new sel st :
  editable st = true ->
  parms (regenerated p new sel st) !! p = parm_after sel new (parms st !! p).
Proof.
  intros He. rewrite regenerated_parms, He. unfold parm_after.
  destruct (chosen sel new); [|done]. by rewrite lookup_insert_eq.
Qed.

Lemma is_overriden_view p s t : view p s = view p t -> is_overriden p s = is_overriden p t.
Proof.
  unfold view. intros [= _ _ Ho Hmode]. unfold is_overriden, legacy_auto_mode.
  by rewrite Ho, Hmode.
Qed.

Lemma is_overriden_regenerated p new sel st :
  chain_name p -> is_overriden p (regenerated p new sel st) = is_overriden p st.
Proof.
  intros (Hl & Hmode & Hov). unfold is_overriden, legacy_auto_mode.
  rewrite !regenerated_parms_ne; [done|done|apply Hov].
Qed.

(** The stage lemma: on an editable node, a menu that was just
    regenerated shows the same entries and the same selection when it is
    regenerated again from the same records. *)
Lemma regenerated_settles p new force s t sel_s :
  chain_name p ->
  editable s = true -> editable t = true ->
  get_selection p force s = Ok sel_s ->
  view p t = view p (regenerated p new sel_s s) ->
  exists sel_t,
    get_selection p force t = Ok sel_t
    /\ same_selection p (regenerated p new sel_t t) (regenerated p new sel_s s).
Proof.
  intros Hp Hes Het Hsel Hview.
  destruct (get_selection_Ok_inv _ _ _ _ Hsel) as [[m0 Hm0] [pv0 Hpv0]].
  destruct (get_selection_Ok_context _ _ _ _ Hsel) as [cv Hcv].
  set (a := regenerated p new sel_s s) in *.
  assert (Hov : is_overriden p t = is_overriden p s).
  { rewrite (is_overriden_view _ _ _ Hview). by apply is_overriden_regenerated. }
  pose proof (regenerated_menu p new sel_s s) as Hma. fold a in Hma.
  pose proof (regenerated_parm_editable p new sel_s s Hes) as Hpa. fold a in Hpa.
  rewrite Hpv0 in Hpa.
  assert (Hmt : menus t !! p = menus a !! p) by (unfold view in Hview; congruence).
  assert (Hpt : parms t !! p = parms a !! p) by (unfold view in Hview; congruence).
  rewrite Hma in Hmt. rewrite Hpa in Hpt.
  rewrite (get_selection_eq _ _ _ _ _ _ Hm0 Hpv0 Hcv) in Hsel.
  injection Hsel as Hsel.
  assert (Hsome : exists pva, parm_after sel_s new (Some pv0) = Some pva).
  { unfold parm_after. destruct (chosen sel_s new); eauto. }
  destruct Hsome as [pva Hpva]. rewrite Hpva in Hpt, Hpa.
  eexists. split.
  { rewrite (get_selection_eq _ _ _ _ _ _ Hmt Hpt Hcv). reflexivity. }
  simpl. rewrite Hov.
  set (sel_t := selection_of cv force (is_overriden p s) new (Some pva)).
  split.
  - by rewrite regenerated_menu, Hma.
  - intros f.
    pose proof (regenerated_menu p new sel_t t) as Hmb.
    pose proof (regenerated_parm_editable p new sel_t t Het) as Hpb.
    rewrite Hpt in Hpb.
    assert (Hsomeb : exists pvb, parm_after sel_t new (Some pva) = Some pvb).
    { unfold parm_after. destruct (chosen sel_t new); eauto. }
    destruct Hsomeb as [pvb Hpvb]. rewrite Hpvb in Hpb.
    rewrite (get_selection_eq _ _ _ _ _ _ Hmb Hpb Hcv).
    rewrite (get_selection_eq _ _ _ _ _ _ Hma Hpa Hcv).
    unfold a. rewrite !is_overriden_regenerated by done. rewrite Hov. simpl.
    unfold selection_of. f_equal.
    destruct (f && py_truthy cv)%bool; [done|].
    destruct (negb (is_overriden p s) && py_truthy cv)%bool; [done|].
    rewrite <- Hpvb, <- Hpva. unfold sel_t. rewrite <- Hpva, <- Hsel.
    apply (base_value_settled cv force (is_overriden p s) (menu m0) new (Some pv0)).
Qed.

(** *** Links compose *)

Lemma frames_ext D (T T' : M unit) :
  (forall st, T st = T' st) -> frames D T' -> frames D T.
Proof. intros Heq H s r s' Hrun. rewrite Heq in Hrun. by apply H in Hrun. Qed.

Lemma settles_ext D (T T' : M unit) :
  (forall st, T st = T' st) -> settles D T' -> settles D T.
Proof.
  intros Heq H s s' t He Hrun Hag Hv. rewrite Heq in Hrun.
  destruct (H s s' t He Hrun Hag Hv) as (t' & Ht & Hsame).
  exists t'. by rewrite Heq.
Qed.

Lemma frames_ret D : frames D (ret tt).
Proof. intros s r s' [= _ <-]. split; [apply static_eq_refl|done]. Qed.

Lemma settles_ret D : settles D (ret tt).
Proof.
  intros s s' t _ [= <-] _ Hv. exists t. split; [done|].
  intros q Hq. apply same_selection_view. by apply Hv.
Qed.

Lemma frames_guarded D cond T : frames D T -> frames D (guarded cond T).
Proof.
  intros H s r s' Hrun. unfold guarded in Hrun.
  destruct (cond s); [by apply H in Hrun|].
  injection Hrun as _ <-. split; [apply static_eq_refl|done].
Qed.

Lemma settles_guarded D (cond : Node -> bool) T :
  respects D cond -> settles D T -> settles D (guarded cond T).
Proof.
  intros Hc H s s' t He Hrun Hag Hv. unfold guarded in *.
  rewrite <- (Hc s t Hag).
  destruct (cond s); [by apply (H s s' t)|].
  injection Hrun as <-. exists t. split; [done|].
  intros q Hq. apply same_selection_view. by apply Hv.
Qed.

Lemma frames_stage D fetch p name label reverse force rest :
  chain_name p -> frames D rest ->
  frames (p :: D) (stage fetch p name label reverse force rest).
Proof.
  intros Hp Hrest s r s' Hrun. unfold stage in Hrun.
  destruct (fetch s) as [data|e]; [|injection Hrun as _ <-; split;
                                      [apply static_eq_refl|done]].
  unfold bind in Hrun.
  destruct (generate_menu p data name label reverse force s) as [[[]|e] s1] eqn:Hg.
  - apply Hrest in Hrun as [Hst Hv].
    apply generate_menu_state in Hg as [->|(new & sel & ->)].
    + split; [done|]. intros q Hq. apply Hv. intros ?. apply Hq. by right.
    + split; [eapply static_eq_trans; [by apply regenerated_static|done]|].
      intros q Hq. apply not_elem_of_cons in Hq as [Hqp HqD].
      rewrite (Hv q HqD). by apply regenerated_view_ne.
  - injection Hrun as _ <-.
    apply generate_menu_state in Hg as [->|(new & sel & ->)].
    + split; [apply static_eq_refl|done].
    + split; [by apply regenerated_static|].
      intros q Hq. apply not_elem_of_cons in Hq as [Hqp HqD].
      by apply regenerated_view_ne.
Qed.

Lemma settles_stage D fetch p name label reverse force rest :
  chain_name p -> p ∉ D ->
  respects (p :: D) fetch ->
  frames D rest -> settles D rest ->
  settles (p :: D) (stage fetch p name label reverse force rest).
Proof.
  intros Hp HpD Hresp Hframes Hsettles s s' t Hes Hrun Hag Hview.
  assert (Het : editable t = true) by (destruct Hag as [(<-&_) _]; done).
  unfold stage in *. rewrite <- (Hresp s t Hag).
  destruct (fetch s) as [data|e]; [|done].
  unfold bind in *.
  rewrite generate_menu_editable in Hrun by done.
  rewrite generate_menu_editable by done.
  destruct (get_selection p force s) as [sel_s|e] eqn:Hsel; [|done].
  set (new := build_menu name label (if reverse then rev data else data)) in *.
  set (a := regenerated p new sel_s s) in *.
  destruct (Hframes _ _ _ Hrun) as [Hsta Hva].
  assert (Hvt : view p t = view p a).
  { rewrite (Hview p) by apply list_elem_of_here. by apply Hva. }
  destruct (regenerated_settles p new force s t sel_s Hp Hes Het Hsel Hvt)
    as (sel_t & Hselt & Hsame).
  rewrite Hselt.
  set (b := regenerated p new sel_t t) in *.
  assert (Hab : agree_outside D a b).
  { destruct Hag as [Hst Hout]. split.
    - eapply static_eq_trans; [apply static_eq_sym; by apply regenerated_static|].
      eapply static_eq_trans; [exact Hst|]. by apply regenerated_static.
    - intros q Hq f. destruct (decide (q = p)) as [->|Hne].
      + symmetry. apply Hsame.
      + rewrite (get_selection_view q f a s) by (by apply regenerated_view_ne).
        rewrite (get_selection_view q f b t) by (by apply regenerated_view_ne).
        apply Hout. by apply not_elem_of_cons. }
  assert (Hvb : forall q, q ∈ D -> view q b = view q s').
  { intros q Hq. assert (q <> p) by (intros ->; done).
    unfold b. rewrite regenerated_view_ne by done.
    apply Hview. by right. }
  assert (Hea : editable a = true) by (unfold a; by rewrite regenerated_editable).
  destruct (Hsettles a s' b Hea Hrun Hab Hvb) as (t' & Hrunb & Hsamet).
  exists t'. split; [done|].
  intros q [->|Hq]%elem_of_cons; [|by apply Hsamet].
  destruct (Hframes _ _ _ Hrunb) as [_ Hvb'].
  apply (same_selection_via p b t' a s'); [by apply Hvb'|by apply Hva|done].
Qed.

(** *** The links of the two chains *)

Ltac chain_name_tac :=
  split; [discriminate|split; [discriminate|intros q Hq; simpl in Hq; discriminate Hq]].

Lemma chain_name_asset_type : chain_name "asset_type". Proof. chain_name_tac. Qed.
Lemma chain_name_asset : chain_name "asset". Proof. chain_name_tac. Qed.
Lemma chain_name_step : chain_name "step". Proof. chain_name_tac. Qed.
Lemma chain_name_task : chain_name "task". Proof. chain_name_tac. Qed.
Lemma chain_name_sequence : chain_name "sequence". Proof. chain_name_tac. Qed.
Lemma chain_name_shot : chain_name "shot". Proof. chain_name_tac. Qed.
Lemma chain_name_shot_step : chain_name "shot_step". Proof. chain_name_tac. Qed.
Lemma chain_name_shot_task : chain_name "shot_task". Proof. chain_name_tac. Qed.
Lemma chain_name_version : chain_name "version". Proof. chain_name_tac. Qed.

Ltac outside :=
  let H := fresh in
  intros H; repeat (apply elem_of_cons in H as [H|H]; [discriminate H|]);
  by apply elem_of_nil in H.

Lemma update_version_menu_stage force st :
  update_version_menu force st
  = guarded (version_wanted force)
      (stage fetch_versions "version" "version_number" "version_number" true force
             (ret tt)) st.
Proof.
  unfold update_version_menu, guarded, version_wanted, stage, fetch_versions,
    menus_updated, bind, reads, ret, raise.
  destruct (parms st !! "latest") as [v|]; [|done].
  destruct (force || negb (py_truthy v))%bool; [|done].
  destruct (in_asset_mode st) as [[|]|e]; simpl; [| |done].
  - destruct (get_selection "task" false st) as [task|e]; simpl; [|done].
    destruct (py_int task) as [z|e]; simpl; [|done].
    by destruct (generate_menu _ _ _ _ _ _ st) as [[[]|e] s1].
  - destruct (in_shot_mode st) as [[|]|e]; simpl; [| done |done].
    destruct (get_selection "shot_task" false st) as [task|e]; simpl; [|done].
    destruct (py_int task) as [z|e]; simpl; [|done].
    by destruct (generate_menu _ _ _ _ _ _ st) as [[[]|e] s1].
Qed.

Lemma update_task_menu_stage force st :
  update_task_menu force st
  = stage fetch_tasks "task" "id" "content" false force (update_version_menu false) st.
Proof.
  unfold update_task_menu, stage, fetch_tasks, bind, reads.
  destruct (get_parm_menu_value "asset" st) as [a|e]; simpl; [|done].
  destruct (int_if_set a) as [a'|e]; simpl; [|done].
  destruct (get_parm_menu_value "step" st) as [b|e]; simpl; [|done].
  by destruct (int_if_set b) as [b'|e].
Qed.

Lemma update_step_menu_stage force st :
  update_step_menu force st
  = stage fetch_steps "step" "step.Step.id" "step.Step.code" false force
      (update_task_menu force) st.
Proof.
  unfold update_step_menu, stage, fetch_steps, bind, reads.
  destruct (get_parm_menu_value "asset" st) as [a|e]; simpl; [|done].
  by destruct (int_if_set a) as [a'|e].
Qed.

Lemma update_asset_menu_stage force st :
  update_asset_menu force st
  = stage fetch_assets "asset" "id" "code" false force (update_step_menu force) st.
Proof.
  unfold update_asset_menu, stage, fetch_assets, bind, reads.
  by destruct (get_parm_menu_value "asset_type" st) as [a|e].
Qed.

Lemma update_asset_types_menu_stage force st :
  update_asset_types_menu force st
  = stage (fun _ => Ok get_asset_types) "asset_type" "name" "name" false force
      (update_asset_menu force) st.
Proof. reflexivity. Qed.

Lemma update_shot_task_menu_stage force st :
  update_shot_task_menu force st
  = stage fetch_shot_tasks "shot_task" "id" "content" false force
      (update_version_menu false) st.
Proof.
  unfold update_shot_task_menu, stage, fetch_shot_tasks, bind, reads, ret.
  destruct (get_selection "shot" false st) as [a|e]; simpl; [|done].
  destruct (get_selection "shot_step" false st) as [b|e]; simpl; [|done].
  destruct (py_truthy a && py_truthy b)%bool; [|done].
  destruct (py_int a) as [a'|e]; simpl; [|done].
  by destruct (py_int b) as [b'|e].
Qed.

Lemma update_shot_step_menu_stage force st :
  update_shot_step_menu force st
  = stage fetch_shot_steps "shot_step" "step.Step.id" "step.Step.code" false force
      (update_shot_task_menu force) st.
Proof.
  unfold update_shot_step_menu, stage, fetch_shot_steps, bind, reads, ret.
  destruct (get_selection "shot" false st) as [a|e]; simpl; [|done].
  destruct (py_truthy a); [|done].
  by destruct (py_int a) as [a'|e].
Qed.

Lemma update_shot_menu_stage force st :
  update_shot_menu force st
  = stage fetch_shots "shot" "id" "code" false force (update_shot_step_menu force) st.
Proof.
  unfold update_shot_menu, stage, fetch_shots, bind, reads.
  by destruct (get_selection "sequence" false st) as [a|e].
Qed.

Lemma update_sequence_menu_stage force st :
  update_sequence_menu force st
  = stage (fun _ => Ok get_sequences) "sequence" "name" "name" false force
      (update_shot_menu force) st.
Proof. reflexivity. Qed.

(** What each link fetches depends only on what is selected upstream. *)

Lemma respects_version_wanted force : respects ["version"] (version_wanted force).
Proof.
  intros s t [(_ & _ & _ & Hl) _]. unfold version_wanted. by rewrite Hl.
Qed.

Lemma respects_fetch_versions : respects ["version"] fetch_versions.
Proof.
  intros s t [(_ & Ha & Hs & _) Hout].
  unfold fetch_versions, in_asset_mode, in_shot_mode, get_parm_menu_value.
  rewrite (Hout "template") by outside.
  rewrite (Hout "task") by outside.
  rewrite (Hout "shot_task") by outside.
  by rewrite Ha, Hs.
Qed.

Lemma respects_fetch_tasks : respects ["task"; "version"] fetch_tasks.
Proof.
  intros s t [_ Hout]. unfold fetch_tasks, get_parm_menu_value.
  rewrite (Hout "asset") by outside. by rewrite (Hout "step") by outside.
Qed.

Lemma respects_fetch_steps : respects ["step"; "task"; "version"] fetch_steps.
Proof.
  intros s t [_ Hout]. unfold fetch_steps, get_parm_menu_value.
  by rewrite (Hout "asset") by outside.
Qed.

Lemma respects_fetch_assets :
  respects ["asset"; "step"; "task"; "version"] fetch_assets.
Proof.
  intros s t [_ Hout]. unfold fetch_assets, get_parm_menu_value.
  by rewrite (Hout "asset_type") by outside.
Qed.

Lemma respects_fetch_shot_tasks : respects ["shot_task"; "version"] fetch_shot_tasks.
Proof.
  intros s t [_ Hout]. unfold fetch_shot_tasks.
  rewrite (Hout "shot") by outside. by rewrite (Hout "shot_step") by outside.
Qed.

Lemma respects_fetch_shot_steps :
  respects ["shot_step"; "shot_task"; "version"] fetch_shot_steps.
Proof.
  intros s t [_ Hout]. unfold fetch_shot_steps.
  by rewrite (Hout "shot") by outside.
Qed.

Lemma respects_fetch_shots :
  respects ["shot"; "shot_step"; "shot_task"; "version"] fetch_shots.
Proof.
  intros s t [_ Hout]. unfold fetch_shots.
  by rewrite (Hout "sequence") by outside.
Qed.

(** The chains, from their last link up. *)

Lemma version_link force :
  frames ["version"] (update_version_menu force)
  /\ settles ["version"] (update_version_menu force).
Proof.
  split.
  - eapply frames_ext; [apply update_version_menu_stage|].
    apply frames_guarded, frames_stage; [apply chain_name_version|apply frames_ret].
  - eapply settles_ext; [apply update_version_menu_stage|].
    apply settles_guarded; [apply respects_version_wanted|].
    apply settles_stage;
      [apply chain_name_version | apply not_elem_of_nil | apply respects_fetch_versions
      | apply frames_ret | apply settles_ret].
Qed.

Lemma task_link force :
  frames ["task"; "version"] (update_task_menu force)
  /\ settles ["task"; "version"] (update_task_menu force).
Proof.
  destruct (version_link false) as [Hf Hs]. split.
  - eapply frames_ext; [apply update_task_menu_stage|].
    apply frames_stage; [apply chain_name_task|done].
  - eapply settles_ext; [apply update_task_menu_stage|].
    apply settles_stage;
      [apply chain_name_task | outside | apply respects_fetch_tasks | done | done].
Qed.

Lemma step_link force :
  frames ["step"; "task"; "version"] (update_step_menu force)
  /\ settles ["step"; "task"; "version"] (update_step_menu force).
Proof.
  destruct (task_link force) as [Hf Hs]. split.
  - eapply frames_ext; [apply update_step_menu_stage|].
    apply frames_stage; [apply chain_name_step|done].
  - eapply settles_ext; [apply update_step_menu_stage|].
    apply settles_stage;
      [apply chain_name_step | outside | apply respects_fetch_steps | done | done].
Qed.

Lemma asset_link force :
  frames ["asset"; "step"; "task"; "version"] (update_asset_menu force)
  /\ settles ["asset"; "step"; "task"; "version"] (update_asset_menu force).
Proof.
  destruct (step_link force) as [Hf Hs]. split.
  - eapply frames_ext; [apply update_asset_menu_stage|].
    apply frames_stage; [apply chain_name_asset|done].
  - eapply settles_ext; [apply update_asset_menu_stage|].
    apply settles_stage;
      [apply chain_name_asset | outside | apply respects_fetch_assets | done | done].
Qed.

Lemma asset_type_link force :
  frames asset_chain (update_asset_types_menu force)
  /\ settles asset_chain (update_asset_types_menu force).
Proof.
  destruct (asset_link force) as [Hf Hs]. split.
  - eapply frames_ext; [apply update_asset_types_menu_stage|].
    apply frames_stage; [apply chain_name_asset_type|done].
  - eapply settles_ext; [apply update_asset_types_menu_stage|].
    apply settles_stage;
      [apply chain_name_asset_type | outside | by intros s t _ | done | done].
Qed.

Lemma shot_task_link force :
  frames ["shot_task"; "version"] (update_shot_task_menu force)
  /\ settles ["shot_task"; "version"] (update_shot_task_menu force).
Proof.
  destruct (version_link false) as [Hf Hs]. split.
  - eapply frames_ext; [apply update_shot_task_menu_stage|].
    apply frames_stage; [apply chain_name_shot_task|done].
  - eapply settles_ext; [apply update_shot_task_menu_stage|].
    apply settles_stage;
      [apply chain_name_shot_task | outside | apply respects_fetch_shot_tasks
      | done | done].
Qed.

Lemma shot_step_link force :
  frames ["shot_step"; "shot_task"; "version"] (update_shot_step_menu force)
  /\ settles ["shot_step"; "shot_task"; "version"] (update_shot_step_menu force).
Proof.
  destruct (shot_task_link force) as [Hf Hs]. split.
  - eapply frames_ext; [apply update_shot_step_menu_stage|].
    apply frames_stage; [apply chain_name_shot_step|done].
  - eapply settles_ext; [apply update_shot_step_menu_stage|].
    apply settles_stage;
      [apply chain_name_shot_step | outside | apply respects_fetch_shot_steps
      | done | done].
Qed.

Lemma shot_link force :
  frames ["shot"; "shot_step"; "shot_task"; "version"] (update_shot_menu force)
  /\ settles ["shot"; "shot_step"; "shot_task"; "version"] (update_shot_menu force).
Proof.
  destruct (shot_step_link force) as [Hf Hs]. split.
  - eapply frames_ext; [apply update_shot_menu_stage|].
    apply frames_stage; [apply chain_name_shot|done].
  - eapply settles_ext; [apply update_shot_menu_stage|].
    apply settles_stage;
      [apply chain_name_shot | outside | apply respects_fetch_shots | done | done].
Qed.

Lemma sequence_link force :
  frames shot_chain (update_sequence_menu force)
  /\ settles shot_chain (update_sequence_menu force).
Proof.
  destruct (shot_link force) as [Hf Hs]. split.
  - eapply frames_ext; [apply update_sequence_menu_stage|].
    apply frames_stage; [apply chain_name_sequence|done].
  - eapply settles_ext; [apply update_sequence_menu_stage|].
    apply settles_stage;
      [apply chain_name_sequence | outside | by intros s t _ | done | done].
Qed.

(** A cascade that frames and settles its chain is idempotent in what
    the menus show. *)
Lemma cascade_twice D (T : M unit) s s1 :
  frames D T -> settles D T ->
  editable s = true ->
  T s = (Ok tt, s1) ->
  exists s2,
    T s1 = (Ok tt, s2)
    /\ forall q,
         menu <$> (menus s2 !! q) = menu <$> (menus s1 !! q)
         /\ forall force, get_selection q force s2 = get_selection q force s1.
Proof.
  intros Hf Hs He Hrun.
  destruct (Hf _ _ _ Hrun) as [Hst Hv].
  assert (Hag : agree_outside D s s1).
  { split; [done|]. intros q Hq f. symmetry. by apply get_selection_view, Hv. }
  destruct (Hs s s1 s1 He Hrun Hag (fun _ _ => eq_refl)) as (s2 & Hrun2 & Hsame).
  exists s2. split; [done|]. intros q.
  destruct (Hf _ _ _ Hrun2) as [_ Hv2].
  destruct (decide (q ∈ D)) as [Hq|Hq].
  - apply (Hsame q Hq).
  - apply same_selection_view. by apply Hv2.
Qed.

(** C5 (as the code has it).  On an editable node, when a run of the
    asset cascade, or of the shot cascade, returns, a second run on the
    node it left returns too, and every menu then shows the same entries
    and the same selection as after the first run. *)
Theorem cascade_idempotent_editable (force : bool) (s s1 : Node) :
  editable s = true ->
  (update_asset_types_menu force s = (Ok tt, s1) ->
   exists s2,
     update_asset_types_menu force s1 = (Ok tt, s2)
     /\ forall q,
          menu <$> (menus s2 !! q) = menu <$> (menus s1 !! q)
          /\ forall f, get_selection q f s2 = get_selection q f s1)
  /\ (update_sequence_menu force s = (Ok tt, s1) ->
      exists s2,
        update_sequence_menu force s1 = (Ok tt, s2)
        /\ forall q,
             menu <$> (menus s2 !! q) = menu <$> (menus s1 !! q)
             /\ forall f, get_selection q f s2 = get_selection q f s1).
Proof.
  intros He. split; intros Hrun.
  - destruct (asset_type_link force) as [Hf Hs].
    by apply (cascade_twice asset_chain _ s s1).
  - destruct (sequence_link force) as [Hf Hs].
    by apply (cascade_twice shot_chain _ s s1).
Qed.

(** * Further properties of the menus *)

(** X1.  [generate_menu] on menu [p] writes nothing but that menu and its
    parameter: every other menu, every other parameter and all the other
    fields of the node are as before.  On a node that is not editable no
    parameter is written at all. *)
Theorem generate_menu_frame
    (p : string) (data : list dict) (name label : string)
    (reverse force : bool) (st : Node) (r : Res unit) (st' : Node) :
  generate_menu p data name label reverse force st = (r, st') ->
  (forall q, q <> p ->
     menus st' !! q = menus st !! q /\ parms st' !! q = parms st !! q)
  /\ editable st' = editable st
  /\ asset_templates st' = asset_templates st
  /\ shot_templates st' = shot_templates st
  /\ missing_template st' = missing_template st
  /\ output_version st' = output_version st
  /\ output_path st' = output_path st
  /\ output_root st' = output_root st
  /\ (editable st = false -> parms st' = parms st /\ trace st' = trace st).
Proof.
  intros Hrun.
  apply generate_menu_state in Hrun as [->|(new & sel & ->)].
  { repeat split. }
  split.
  { intros q Hq. by rewrite regenerated_menus_ne, regenerated_parms_ne. }
  rewrite regenerated_parms, regenerated_trace, regenerated_editable.
  unfold regenerated.
  destruct (chosen sel new) as [v|]; [destruct (editable st) eqn:He|]; simpl;
    rewrite ?He; repeat split; congruence.
Qed.

(** X2.  After a regeneration that returns with at least one entry, the
    value the menu holds is one of its keys, and on an editable node so
    is the value of its parameter. *)
Theorem generate_menu_value_in_keys
    (p : string) (data : list dict) (name label : string)
    (reverse force : bool) (st st' : Node) (m' : Menu) :
  generate_menu p data name label reverse force st = (Ok tt, st') ->
  menus st' !! p = Some m' ->
  menu m' <> [] ->
  exists k,
    value m' = PyStr k
    /\ k ∈ evens (menu m')
    /\ (editable st = true -> parms st' !! p = Some (PyStr k)).
Proof.
  intros Hrun Hm' Hne.
  destruct (get_selection p force st) as [sel|e] eqn:Hsel.
  2:{ unfold generate_menu, bind, reads in Hrun. by rewrite Hsel in Hrun. }
  rewrite (generate_menu_eq _ _ _ _ _ _ _ _ Hsel) in Hrun.
  destruct (if editable st then Ok data else locked_records name sel data)
    as [d|e]; [|done].
  injection Hrun as <-.
  set (new := build_menu name label (if reverse then rev d else d)) in *.
  rewrite regenerated_menu in Hm'. injection Hm' as <-. simpl in *.
  destruct new as [|k0 rest] eqn:Hnew; [done|].
  destruct (chosen_cons sel k0 rest) as (s1 & Hch & Hin).
  exists s1. rewrite Hch. simpl. split; [done|]. split.
  - simpl in Hin. by apply bool_decide_eq_true in Hin.
  - intros He. rewrite regenerated_parms, Hch, He. by rewrite lookup_insert_eq.
Qed.

(** X3.  On an editable node the regenerated menu lists every input
    record once, in input order, or in reverse order when [reverse] is
    set: its keys are the [str] of the records' [name] fields and it has
    two items per record. *)
Theorem generate_menu_editable_entries
    (p : string) (data : list dict) (name label : string)
    (reverse force : bool) (st st' : Node) :
  editable st = true ->
  generate_menu p data name label reverse force st = (Ok tt, st') ->
  exists m',
    menus st' !! p = Some m'
    /\ evens (menu m')
       = (fun item => py_str (dict_get item name))
           <$> (if reverse then rev data else data)
    /\ length (menu m') = (2 * length data)%nat.
Proof.
  intros He Hrun. rewrite generate_menu_editable in Hrun by done.
  destruct (get_selection p force st) as [sel|e]; [|done].
  injection Hrun as <-. eexists. split; [apply regenerated_menu|]. simpl.
  split; [apply evens_build_menu|].
  assert (Hlen : forall d, length (build_menu name label d) = (2 * length d)%nat).
  { induction d as [|x d IH]; simpl; [done|]. rewrite IH. lia. }
  rewrite Hlen. destruct reverse; [by rewrite length_rev|done].
Qed.

(** X4.  A menu with entries always has a selection: [get_selection]
    never answers [None] for it, and when the parameter is unset (or
    holds the text [None]) and the context gives no value, the answer is
    the first key. *)
Theorem get_selection_falls_back
    (p : string) (force : bool) (st : Node) (m : Menu) (k : string)
    (rest : list string) :
  menus st !! p = Some m ->
  menu m = k :: rest ->
  (forall v, get_selection p force st = Ok v -> v <> PyNone)
  /\ (forall pv,
      parms st !! p = Some pv ->
      py_truthy pv = false \/ pv = PyStr "None" ->
      parm_value_from_context p = Ok PyNone ->
      get_selection p force st = Ok (PyStr k)).
Proof.
  intros Hm Hk. split.
  - intros v Hv.
    destruct (get_selection_Ok_inv _ _ _ _ Hv) as [_ [pv Hpv]].
    destruct (get_selection_Ok_context _ _ _ _ Hv) as [cv Hcv].
    rewrite (get_selection_eq _ _ _ _ _ _ Hm Hpv Hcv) in Hv.
    injection Hv as <-. unfold selection_of, base_value. rewrite Hk.
    destruct (force && py_truthy cv)%bool; [done|].
    destruct (negb (is_overriden p st) && py_truthy cv)%bool; [done|].
    destruct (py_truthy pv && negb (bool_decide (pv = PyStr "None")))%bool eqn:Hok;
      [|done].
    intros ->. done.
  - intros pv Hpv Hunset Hcv.
    rewrite (get_selection_eq _ _ _ _ _ _ Hm Hpv Hcv).
    unfold selection_of, base_value. rewrite Hk. simpl.
    rewrite !andb_false_r.
    destruct Hunset as [Hf| ->]; [by rewrite Hf|].
    rewrite (bool_decide_eq_true_2 (PyStr "None" = PyStr "None")) by done.
    by rewrite andb_false_r.
Qed.


(** X6.  A cascade writes its own chain only: the asset cascade leaves
    every menu and parameter outside the asset chain as it was (the
    template menu and the whole shot chain among them), and the shot
    cascade does the same for everything outside the shot chain. *)
Theorem cascade_frame (force : bool) (s : Node) (r : Res unit) (s' : Node) :
  (update_asset_types_menu force s = (r, s') ->
   forall q, q ∉ asset_chain ->
     menus s' !! q = menus s !! q /\ parms s' !! q = parms s !! q)
  /\ (update_sequence_menu force s = (r, s') ->
      forall q, q ∉ shot_chain ->
        menus s' !! q = menus s !! q /\ parms s' !! q = parms s !! q).
Proof.
  split; intros Hrun q Hq.
  - destruct (asset_type_link force) as [Hf _].
    destruct (Hf _ _ _ Hrun) as [_ Hv]. specialize (Hv q Hq).
    unfold view in Hv. injection Hv as Hm Hp _ _. done.
  - destruct (sequence_link force) as [Hf _].
    destruct (Hf _ _ _ Hrun) as [_ Hv]. specialize (Hv q Hq).
    unfold view in Hv. injection Hv as Hm Hp _ _. done.
Qed.

(** * Further properties of the context and of the publish node *)

Lemma task_id_from_globals_none_or_raise (c : Context) :
  task_id_from_globals c = Ok PyNone \/ exists e, task_id_from_globals c = Raise e.
Proof.
  unfold task_id_from_globals.
  destruct (get_globals_node c) as [fresh|]; [|by left].
  destruct (globals_node c) as [cached|]; [|right; eauto].
  destruct (evalParm cached "context") as [context|e]; simpl; [|right; eauto].
  destruct (evalParm cached "task") as [task|e]; simpl; [|right; eauto].
  destruct (bool_decide (context = PyStr "asset")).
  { destruct (evalParm cached "asset"); simpl; right; eauto. }
  destruct (bool_decide (context = PyStr "shot")).
  { destruct (evalParm cached "shot"); simpl; right; eauto. }
  by left.
Qed.

(** X7.  The globals source never yields a task id: it answers [None] or
    it raises.  So when the override gives nothing and a globals node is
    cached, [raw_task_id] never yields a task id either. *)
Theorem task_id_from_globals_never_resolves (c : Context) :
  (task_id_from_globals c = Ok PyNone \/ exists e, task_id_from_globals c = Raise e)
  /\ (forall custom,
      task_id_from_custom c = Ok custom ->
      py_truthy custom = false ->
      globals_node c <> None ->
      raw_task_id c = Ok PyNone \/ exists e, raw_task_id c = Raise e).
Proof.
  pose proof (task_id_from_globals_none_or_raise c) as H.
  split; [done|].
  intros custom Hc Hf Hg. unfold raw_task_id. rewrite Hc. simpl. rewrite Hf.
  by destruct (globals_node c).
Qed.

(** X9.  [task_id_from_custom] swallows a missing parameter: without the
    override parameter, with the override off, or with the override on
    and no custom parameter, it answers [None]; with the override on it
    answers the custom value converted to an integer. *)
Theorem task_id_from_custom_cases (c : Context) :
  (parms (sg_node c) !! "override_custom_taskid" = None ->
   task_id_from_custom c = Ok PyNone)
  /\ (forall flag,
      parms (sg_node c) !! "override_custom_taskid" = Some flag ->
      (py_truthy flag = false -> task_id_from_custom c = Ok PyNone)
      /\ (py_truthy flag = true ->
          parms (sg_node c) !! "custom_taskid" = None ->
          task_id_from_custom c = Ok PyNone)
      /\ (forall v z,
          py_truthy flag = true ->
          parms (sg_node c) !! "custom_taskid" = Some v ->
          py_int v = Ok z ->
          task_id_from_custom c = Ok (PyInt z))).
Proof.
  unfold task_id_from_custom, task_id_from_custom_try, evalParm.
  split; [by intros ->|].
  intros flag ->. simpl. split; [by intros ->|]. split.
  - by intros -> ->.
  - intros v z -> -> Hz. simpl. by rewrite Hz.
Qed.

(** The output root is the directory of the output path (or neither is
    set yet). *)
Definition output_consistent (st : Node) : Prop :=
  (output_path st = PyNone /\ output_root st = PyNone)
  \/ exists path, output_path st = PyStr path
                  /\ output_root st = PyStr (dirname path).

(** X10.  [update_output_path] keeps the output root in step with the
    output path, however it ends: returning, returning early or
    raising. *)
Theorem update_output_path_keeps_root (st : Node) (r : Res unit) (st' : Node) :
  output_consistent st ->
  update_output_path st = (r, st') ->
  output_consistent st'.
Proof.
  intros Hc. unfold update_output_path, bind, reads, modify, ret, raise.
  destruct (missing_template st); [by intros [= _ <-]|].
  destruct (selected_template st) as [t|e]; [|by intros [= _ <-]].
  cbv beta iota.
  destruct (validate_template_list [t]) as [e|].
  { destruct e; by intros [= _ <-]. }
  change (selected_task (emit (ValidateTemplateList [t]) st))
    with (selected_task st).
  destruct (selected_task st) as [task|e]; [|by intros [= _ <-]].
  cbv beta iota.
  destruct (negb (py_truthy task)); [by intros [= _ <-]|].
  destruct (py_int task) as [z|e]; [|by intros [= _ <-]].
  cbv beta iota zeta.
  set (version := next_version_from_template_list [t] z).
  set (path := output_path_from_template t z version).
  assert (Hpress : forall button s r1 s1,
            pressButton button s = (r1, s1) ->
            output_consistent s -> output_consistent s1).
  { intros button s r1 s1. unfold pressButton.
    destruct (parms s !! button); by intros [= _ <-]. }
  match goal with
  | |- context [pressButton "output_version" ?s] =>
      assert (Hs : output_consistent s) by (right; exists path; done);
      destruct (pressButton "output_version" s) as [[[]|e1] s1] eqn:H1
  end;
    [|intros [= _ <-]; by eapply Hpress].
  destruct (pressButton "output_root" s1) as [[[]|e2] s2] eqn:H2;
    [|intros [= _ <-]; eauto].
  destruct (pressButton "lopoutput" s2) as [r3 s3] eqn:H3.
  intros [= _ <-]. eauto.
Qed.

(** X11.  Nothing is looked up before the template is validated and a
    task is selected.  A validation error other than "template not
    found" reaches the caller and is not remembered; with no task
    selected the call returns after the validation.  In both cases the
    only service call is the validation and the output fields keep
    their values. *)
Theorem update_output_path_stops_early (st : Node) (template_name : PyVal) :
  missing_template st = false ->
  selected_template st = Ok template_name ->
  let validated := emit (ValidateTemplateList [template_name]) st in
  (forall e,
     validate_template_list [template_name] = Some e ->
     e <> SgtkTemplateNotFoundException ->
     update_output_path st = (Raise e, validated))
  /\ (forall task,
      validate_template_list [template_name] = None ->
      selected_task st = Ok task ->
      py_truthy task = false ->
      update_output_path st = (Ok tt, validated))
  /\ missing_template validated = false
  /\ output_version validated = output_version st
  /\ output_path validated = output_path st
  /\ output_root validated = output_root st.
Proof.
  intros Hm Ht validated.
  assert (Hsel : forall s, selected_task (emit s st) = selected_task st) by done.
  split; [|split; [|done]].
  - intros e He Hne. unfold update_output_path, bind, reads, modify, raise.
    rewrite Hm, Ht. simpl. rewrite He. by destruct e.
  - intros task Hv Htask Hf. unfold update_output_path, bind, reads, modify, ret.
    rewrite Hm, Ht. simpl. rewrite Hv. rewrite Hsel, Htask. simpl. by rewrite Hf.
Qed.

(** * Override flags ([shotgun/node.py]) *)

(** The names [__init__] inserts into [sg_asset_menus] and into
    [sg_shot_menus], in that order; the keys of each dictionary are the
    names that have a menu object (the version menu is optional).  The
    dictionaries keep insertion order. *)
Definition asset_menu_names : list string :=
  ["template"; "asset_type"; "asset"; "step"; "task"; "version"].

Definition shot_menu_names : list string :=
  ["template"; "sequence"; "shot"; "shot_step"; "shot_task"; "version"].

Definition sg_asset_menus_keys (st : Node) : list string :=
  filter (fun k => is_Some (menus st !! k)) asset_menu_names.

Definition sg_shot_menus_keys (st : Node) : list string :=
  filter (fun k => is_Some (menus st !! k)) shot_menu_names.

(** [parm_overriden]: [None] without an override parameter, else what
    the parameter holds. *)
Definition parm_overriden (parm_name : string) (st : Node) : PyVal :=
  match parms st !! ("override_" +:+ parm_name) with
  | Some v => v
  | None => PyNone
  end.

(** [context_overriden]. *)
Definition context_overriden (st : Node) : bool :=
  (existsb (fun parm_name => py_truthy (parm_overriden parm_name st))
     (sg_asset_menus_keys st)
   || existsb (fun parm_name => py_truthy (parm_overriden parm_name st))
        (sg_shot_menus_keys st))%bool.

(** [update_menu_overrides]. *)
Definition update_menu_overrides (parm_name : string) (overriden : PyVal) : M unit :=
  fun st =>
    match parms st !! ("override_" +:+ parm_name) with
    | None => (Ok tt, st)
    | Some _ =>
        let overriden :=
          if bool_decide (overriden = PyNone) then parm_overriden parm_name st
          else overriden in
        let v := if py_truthy overriden then PyInt 1 else PyInt 0 in
        (Ok tt,
         emit (ParmSet ("override_" +:+ parm_name) (py_str v))
           (with_parms (insert ("override_" +:+ parm_name) v) st))
    end.

(** [for parm_name in names: body(parm_name)]. *)
Fixpoint for_each (body : string -> M unit) (names : list string) : M unit :=
  match names with
  | [] => ret tt
  | parm_name :: rest => body parm_name ;; for_each body rest
  end.

(** [l[l.index(x):]], for [x] in [l]. *)
Fixpoint from_first (x : string) (l : list string) : list string :=
  match l with
  | [] => []
  | y :: rest => if bool_decide (x = y) then l else from_first x rest
  end.

(** The list [parms] that [configure_menus] builds: [None] when the
    name is in neither dictionary. *)
Definition cascade_parms (parm_name : option string) (st : Node)
  : option (list string) :=
  match parm_name with
  | Some name =>
      if String.eqb name "" then Some (sg_asset_menus_keys st ++ sg_shot_menus_keys st)
      else
        let parms_ :=
          (if bool_decide (name ∈ sg_asset_menus_keys st)
           then sg_asset_menus_keys st else [])
          ++ (if bool_decide (name ∈ sg_shot_menus_keys st)
              then sg_shot_menus_keys st else []) in
        match parms_ with
        | [] => None
        | _ => Some (from_first name parms_)
        end
  | None => Some (sg_asset_menus_keys st ++ sg_shot_menus_keys st)
  end.

(** [configure_menus]; [False] is [0]. *)
Definition configure_menus (parm_name : option string) : M unit :=
  let* is_editable := reads (fun st => Ok (editable st)) in
  if negb is_editable then ret tt
  else
    let* parms_ := reads (fun st => Ok (cascade_parms parm_name st)) in
    match parms_ with
    | None => ret tt
    | Some parms_ =>
        let* overriden :=
          reads (fun st => Ok (match parms_ with
                               | first :: _ => parm_overriden first st
                               | [] => PyInt 0
                               end)) in
        for_each (fun name => update_menu_overrides name overriden) (tail parms_)
    end.

(** The flag [update_menu_overrides] writes for a parameter that held
    [old], when it is handed [overriden]. *)
Definition override_flag (overriden old : PyVal) : PyVal :=
  if py_truthy (if bool_decide (overriden = PyNone) then old else overriden)
  then PyInt 1 else PyInt 0.

Lemma override_flag_idem overriden old :
  override_flag overriden (override_flag overriden old) = override_flag overriden old.
Proof.
  unfold override_flag. destruct (bool_decide (overriden = PyNone)); [|done].
  by destruct (py_truthy old).
Qed.

Lemma update_menu_overrides_eq q overriden st :
  exists st',
    update_menu_overrides q overriden st = (Ok tt, st')
    /\ menus st' = menus st /\ editable st' = editable st
    /\ (forall name, name <> "override_" +:+ q -> parms st' !! name = parms st !! name)
    /\ parms st' !! ("override_" +:+ q)
       = override_flag overriden <$> (parms st !! ("override_" +:+ q)).
Proof.
  unfold update_menu_overrides, parm_overriden, override_flag.
  destruct (parms st !! ("override_" +:+ q)) as [old|] eqn:Hold.
  - eexists. split; [reflexivity|]. simpl. repeat split.
    + intros name Hne. by rewrite lookup_insert_ne.
    + by rewrite lookup_insert_eq.
  - exists st. by rewrite Hold.
Qed.

Lemma for_each_overrides overriden names st :
  exists st',
    for_each (fun name => update_menu_overrides name overriden) names st = (Ok tt, st')
    /\ menus st' = menus st /\ editable st' = editable st
    /\ (forall name, (forall q, q ∈ names -> name <> "override_" +:+ q) ->
        parms st' !! name = parms st !! name)
    /\ (forall name old, parms st !! name = Some old ->
        parms st' !! name = Some old
        \/ parms st' !! name = Some (override_flag overriden old))
    /\ (forall name, parms st !! name = None -> parms st' !! name = None)
    /\ (forall q old, q ∈ names ->
        parms st !! ("override_" +:+ q) = Some old ->
        parms st' !! ("override_" +:+ q) = Some (override_flag overriden old)).
Proof.
  revert st. induction names as [|a rest IH]; intros st.
  { exists st. repeat split; eauto. by intros q old ?%elem_of_nil. }
  destruct (update_menu_overrides_eq a overriden st)
    as (s1 & Hrun1 & Hm1 & He1 & Hne1 & Hat1).
  destruct (IH s1) as (s2 & Hrun2 & Hm2 & He2 & Hne2 & Hval2 & Hnone2 & Hhit2).
  exists s2. simpl. unfold bind. rewrite Hrun1.
  split; [done|]. split; [congruence|]. split; [congruence|].
  assert (Hval1 : forall name old, parms st !! name = Some old ->
            parms s1 !! name = Some old
            \/ parms s1 !! name = Some (override_flag overriden old)).
  { intros name old Hold. destruct (decide (name = "override_" +:+ a)) as [->|Hne].
    - right. by rewrite Hat1, Hold.
    - left. by rewrite Hne1. }
  split; [|split; [|split]].
  - intros name Hname. rewrite Hne2, Hne1; [done| |].
    + apply Hname. by left.
    + intros q Hq. apply Hname. by right.
  - intros name old Hold.
    destruct (Hval1 name old Hold) as [H1|H1];
      destruct (Hval2 name _ H1) as [H2|H2]; rewrite ?override_flag_idem in H2; eauto.
  - intros name Hnone. apply Hnone2.
    destruct (decide (name = "override_" +:+ a)) as [->|Hne].
    + by rewrite Hat1, Hnone.
    + by rewrite Hne1.
  - intros q old Hq Hold.
    apply elem_of_cons in Hq as [->|Hq].
    + assert (H1 : parms s1 !! ("override_" +:+ a)
                   = Some (override_flag overriden old)) by (by rewrite Hat1, Hold).
      destruct (Hval2 _ _ H1) as [H2|H2]; rewrite ?override_flag_idem in H2; done.
    + destruct (Hval1 _ _ Hold) as [H1|H1].
      * by apply Hhit2.
      * rewrite (Hhit2 q _ Hq H1). by rewrite override_flag_idem.
Qed.

(** X12.  [configure_menus] passes the override state of the changed
    menu down the chain: on an editable node, every override parameter
    that exists for a name after the first one in the built list ends up
    [1] or [0], as the first name's override is on or off (or, when the
    first name has no override parameter, as its own value was). *)
Theorem configure_menus_cascades
    (parm_name : option string) (st : Node) (first : string)
    (downstream : list string) :
  editable st = true ->
  cascade_parms parm_name st = Some (first :: downstream) ->
  exists st',
    configure_menus parm_name st = (Ok tt, st')
    /\ forall q old,
         q ∈ downstream ->
         parms st !! ("override_" +:+ q) = Some old ->
         parms st' !! ("override_" +:+ q)
         = Some (override_flag (parm_overriden first st) old).
Proof.
  intros He Hps.
  destruct (for_each_overrides (parm_overriden first st) downstream st)
    as (st' & Hrun & _ & _ & _ & _ & _ & Hhit).
  exists st'. split; [|done].
  unfold configure_menus, bind, reads. rewrite He. simpl. rewrite Hps. done.
Qed.

(** X13.  [configure_menus] always returns, touches no menu and no
    parameter other than override parameters, creates no parameter,
    leaves an override parameter as it was or sets it to [0] or [1], and
    does nothing at all on a node that is not editable or for a name
    that is in neither dictionary. *)
Theorem configure_menus_frame (parm_name : option string) (st : Node) :
  exists st',
    configure_menus parm_name st = (Ok tt, st')
    /\ menus st' = menus st
    /\ (forall name, (forall q, name <> "override_" +:+ q) ->
        parms st' !! name = parms st !! name)
    /\ (forall name, parms st !! name = None -> parms st' !! name = None)
    /\ (forall name old, parms st !! name = Some old ->
        parms st' !! name = Some old
        \/ parms st' !! name = Some (PyInt 0)
        \/ parms st' !! name = Some (PyInt 1))
    /\ (editable st = false \/ cascade_parms parm_name st = None -> st' = st).
Proof.
  unfold configure_menus, bind, reads, ret.
  destruct (editable st) eqn:He; simpl.
  2:{ exists st. repeat split; eauto. }
  destruct (cascade_parms parm_name st) as [ps|] eqn:Hps.
  2:{ exists st. repeat split; eauto. }
  set (ov := match ps with first :: _ => parm_overriden first st | [] => PyInt 0 end).
  destruct (for_each_overrides ov (tail ps) st)
    as (st' & Hrun & Hm & _ & Hne & Hval & Hnone & _).
  exists st'. split; [done|]. split; [done|]. split; [|split; [done|split]].
  - intros name Hname. apply Hne. intros q _. apply Hname.
  - intros name old Hold. destruct (Hval name old Hold) as [H|H]; [by left|right].
    rewrite H. unfold override_flag.
    destruct (py_truthy _); [by right|by left].
  - intros [Habs|Habs]; congruence.
Qed.

(** * Context checks of the node ([shotgun/node.py]) *)

(** [farm.running_on_farm()] and [sg_load.valid_task_id].  [globals_text]
    is the text a globals node (or [None]) formats to. *)
Variable running_on_farm : bool.
Variable valid_task_id : PyVal -> bool.
Variable globals_text : option (gmap string PyVal) -> string.

(** [invalid_context], for the node of context [c]. *)
Definition invalid_context (c : Context) : Res bool :=
  if running_on_farm then Ok false
  else
    let+ task_id := raw_task_id c in
    Ok (negb (valid_task_id task_id) && negb (context_overriden (sg_node c)))%bool.

Definition no_context_message : string := "No context could be loaded.".

(** [context_message]. *)
Definition context_message (c : Context) : Res string :=
  let+ custom_task_id := task_id_from_custom c in
  let+ globals_task_id := task_id_from_globals c in
  let+ hip_task_id := task_id_from_hip c in
  Ok (if negb (bool_decide (custom_task_id = PyNone)) then
        if valid_task_id custom_task_id
        then "Context from custom task ID: " +:+ py_str custom_task_id
        else no_context_message
      else if negb (bool_decide (globals_task_id = PyNone)) then
        if valid_task_id globals_task_id
        then "Context from scene globals at: " +:+ globals_text (get_globals_node c)
        else no_context_message
      else if negb (bool_decide (hip_task_id = PyNone)) then
        if valid_task_id hip_task_id
        then "Context from scene path: " +:+ hip_path c
        else no_context_message
      else no_context_message).


Lemma existsb_false_iff {A} (f : A -> bool) (l : list A) :
  existsb f l = false <-> forall x, x ∈ l -> f x = false.
Proof.
  induction l as [|a l IH]; simpl.
  - split; [by intros _ x ?%elem_of_nil|done].
  - rewrite orb_false_iff, IH. split.
    + intros [Ha Hl] x [->|Hx]%elem_of_cons; eauto.
    + intros H. split; [apply H; by left|]. intros x Hx. apply H. by right.
Qed.

(** X14.  On the farm the context is never invalid, and the context is
    not even read.  Off the farm, once the task id is resolved, the
    context is invalid exactly when that id is not valid and no menu of
    either dictionary has its override on; if resolving the task id
    raises, so does [invalid_context]. *)
Theorem invalid_context_cases (c : Context) :
  (running_on_farm = true -> invalid_context c = Ok false)
  /\ (running_on_farm = false ->
      forall task_id, raw_task_id c = Ok task_id ->
      (invalid_context c = Ok true <->
       valid_task_id task_id = false
       /\ forall parm_name,
            parm_name ∈ sg_asset_menus_keys (sg_node c) ++ sg_shot_menus_keys (sg_node c) ->
            py_truthy (parm_overriden parm_name (sg_node c)) = false))
  /\ (running_on_farm = false ->
      forall e, raw_task_id c = Raise e -> invalid_context c = Raise e).
Proof.
  unfold invalid_context. split; [by intros ->|]. split.
  - intros -> task_id ->. simpl. unfold context_overriden.
    split.
    + intros [= H]. apply andb_true_iff in H as [Hv Ho].
      apply negb_true_iff in Hv. apply negb_true_iff, orb_false_iff in Ho as [Ha Hs].
      split; [done|]. intros parm_name Hin. apply elem_of_app in Hin as [Hin|Hin].
      * by apply (proj1 (existsb_false_iff _ _) Ha).
      * by apply (proj1 (existsb_false_iff _ _) Hs).
    + intros [Hv Hall]. rewrite Hv. simpl. f_equal. apply negb_true_iff, orb_false_iff.
      split; apply existsb_false_iff; intros x Hx; apply Hall, elem_of_app; eauto.
  - by intros -> e ->.
Qed.

(** X15.  [context_message] never reports the scene globals.  It names
    the custom task id when that id is valid, the scene path when no
    custom id is given and the path's task id is valid, and otherwise
    says that no context could be loaded; in particular a custom id that
    is given but not valid hides a valid scene path. *)
Theorem context_message_cases (c : Context) (message : string) :
  context_message c = Ok message ->
  (exists z,
     task_id_from_custom c = Ok (PyInt z)
     /\ (if valid_task_id (PyInt z)
         then message = "Context from custom task ID: " +:+ py_str (PyInt z)
         else message = no_context_message))
  \/ (task_id_from_custom c = Ok PyNone
      /\ task_id_from_globals c = Ok PyNone
      /\ (if (negb (bool_decide (task_id_from_path (hip_path c) = PyNone))
              && valid_task_id (task_id_from_path (hip_path c)))%bool
          then message = "Context from scene path: " +:+ hip_path c
          else message = no_context_message)).
Proof.
  unfold context_message.
  assert (Hcustom : forall v, task_id_from_custom c = Ok v ->
                              v = PyNone \/ exists z, v = PyInt z).
  { unfold task_id_from_custom, task_id_from_custom_try. intros v.
    destruct (evalParm (parms (sg_node c)) "override_custom_taskid") as [flag|[]];
      simpl; try (intros [= <-]; by left); try done.
    destruct (py_truthy flag); [|intros [= <-]; by left].
    destruct (evalParm (parms (sg_node c)) "custom_taskid") as [cv|[]];
      simpl; try (intros [= <-]; by left); try done.
    destruct (py_int cv) as [z|[]]; simpl; try done.
    - intros [= <-]. eauto.
    - intros [= <-]. by left. }
  destruct (task_id_from_custom c) as [custom|e] eqn:Hc; [|done]. simpl.
  destruct (task_id_from_globals_none_or_raise c) as [Hg|[e Hg]];
    rewrite Hg; [|done]. simpl.
  destruct (Hcustom custom eq_refl) as [->|[z ->]].
  - intros [= <-]. right. split; [done|]. split; [done|]. simpl.
    unfold task_id_from_hip. simpl.
    destruct (negb (bool_decide (task_id_from_path (hip_path c) = PyNone))); [|done].
    simpl. by destruct (valid_task_id (task_id_from_path (hip_path c))).
  - intros [= <-]. left. exists z. split; [done|]. simpl.
    by destruct (valid_task_id (PyInt z)).
Qed.


(** * More of the USD publish node ([shotgun/usdpublishnode.py]) *)

(** A [ShotgunUSDPublishNode]: the node and the template its save style
    was last set for ([self.context]). *)
Record PublishNode : Type := mkPublishNode {
  publish_base : Node;
  save_context : PyVal
}.

(** [node.parm(name).set(text)]. *)
Definition set_parm (name text : string) : M unit :=
  fun st =>
    match parms st !! name with
    | None => (Raise AttributeError, st)
    | Some _ => (Ok tt, emit (ParmSet name text) (with_parms (insert name (PyStr text)) st))
    end.

(** [update_save_default]. *)
Definition update_save_default (pn : PublishNode) : Res unit * PublishNode :=
  let st := publish_base pn in
  match selected_template st with
  | Raise e => (Raise e, pn)
  | Ok selected =>
      if bool_decide (selected = save_context pn) then (Ok tt, pn)
      else
        let finish (r : Res unit * Node) :=
          match r with
          | (Ok _, st') => (Ok tt, mkPublishNode st' selected)
          | (Raise e, st') => (Raise e, mkPublishNode st' (save_context pn))
          end in
        match in_asset_mode st with
        | Raise e => (Raise e, pn)
        | Ok true => finish (set_parm "savestyle" "flattenalllayers" st)
        | Ok false =>
            match in_shot_mode st with
            | Raise e => (Raise e, pn)
            | Ok true => finish (set_parm "savestyle" "flattenimplicitlayers" st)
            | Ok false =>
                (Raise (RuntimeError "Must be in either asset or shot mode."), pn)
            end
        end
  end.

(** [sg_template.template_from_path(path, templates=...)]: the name of
    the template the path matches, if any. *)
Variable template_from_path : string -> list string -> option string.

Definition hip_templates : list string :=
  ["houdini_asset_work"; "houdini_asset_publish";
   "houdini_shot_work"; "houdini_shot_publish"].

Definition hip_asset_templates : list string :=
  ["houdini_asset_work"; "houdini_asset_publish"].

Definition hip_shot_templates : list string :=
  ["houdini_shot_work"; "houdini_shot_publish"].

(** [hip_asset_mode] and [hip_shot_mode], for the scene path [hip]. *)
Definition hip_asset_mode (hip : string) : bool :=
  match template_from_path hip hip_templates with
  | Some name => bool_decide (name ∈ hip_asset_templates)
  | None => false
  end.

Definition hip_shot_mode (hip : string) : bool :=
  match template_from_path hip hip_templates with
  | Some name => bool_decide (name ∈ hip_shot_templates)
  | None => false
  end.

(** [sg_load.variant_name_from_task] and [sg_load.asset_id_from_task_id]. *)
Variable variant_name_from_task : Z -> PyVal.
Variable asset_id_from_task_id : Z -> PyVal.

(** [auto_generate_asset_usd]; the result comes with the calls of
    [assetusd.publish_asset_usd] it made, as pairs of asset id and
    variant name. *)
Definition auto_generate_asset_usd (st : Node) : Res unit * list (PyVal * PyVal) :=
  match selected_task st with
  | Raise e => (Raise e, [])
  | Ok task =>
      match py_int task with
      | Raise e => (Raise e, [])
      | Ok task_id =>
          match in_asset_mode st with
          | Raise e => (Raise e, [])
          | Ok false =>
              (Raise (RuntimeError "Can only be run when operating in asset mode."), [])
          | Ok true =>
              let variant_name := variant_name_from_task task_id in
              let asset_id := asset_id_from_task_id task_id in
              (Ok tt, [(asset_id, variant_name)])
          end
      end
  end.

(** X17.  [update_save_default] is idempotent: after a call that
    returns, the remembered template is the selected one, and a second
    call changes nothing.  A call that raises does not move the
    remembered template. *)
Theorem update_save_default_settles (pn pn' : PublishNode) (r : Res unit) :
  update_save_default pn = (r, pn') ->
  (r = Ok tt ->
   selected_template (publish_base pn') = Ok (save_context pn')
   /\ update_save_default pn' = (Ok tt, pn'))
  /\ (r <> Ok tt -> save_context pn' = save_context pn).
Proof.
  assert (Hset : forall text st r1 st1,
            set_parm "savestyle" text st = (r1, st1) ->
            selected_template st1 = selected_template st).
  { intros text st r1 st1. unfold set_parm.
    destruct (parms st !! "savestyle"); intros [= _ <-]; [|done].
    unfold selected_template, evalParm. simpl. by rewrite lookup_insert_ne. }
  assert (Hidle : forall qn selected,
            selected_template (publish_base qn) = Ok selected ->
            selected = save_context qn ->
            update_save_default qn = (Ok tt, qn)).
  { intros qn selected Hsel Heq. unfold update_save_default.
    rewrite Hsel. by rewrite bool_decide_eq_true_2. }
  unfold update_save_default.
  destruct (selected_template (publish_base pn)) as [selected|e] eqn:Hsel.
  2:{ intros [= <- <-]. split; done. }
  destruct (bool_decide (selected = save_context pn)) eqn:Hd.
  { intros [= <- <-]. apply bool_decide_eq_true in Hd. split; [|done].
    intros _. split; [congruence|]. by apply (Hidle pn selected). }
  assert (Hfinish : forall text,
    (let (r0, st') := set_parm "savestyle" text (publish_base pn) in
     match r0 with
     | Ok _ => (Ok tt, mkPublishNode st' selected)
     | Raise e => (Raise e, mkPublishNode st' (save_context pn))
     end) = (r, pn') ->
    (r = Ok tt ->
     selected_template (publish_base pn') = Ok (save_context pn')
     /\ update_save_default pn' = (Ok tt, pn'))
    /\ (r <> Ok tt -> save_context pn' = save_context pn)).
  { intros text.
    destruct (set_parm "savestyle" text (publish_base pn)) as [[[]|e] st1] eqn:Hrun;
      intros [= <- <-]; (split; [|done]); [|done].
    intros _. simpl. pose proof (Hset _ _ _ _ Hrun) as H1.
    split; [congruence|]. apply (Hidle _ selected); simpl; congruence. }
  destruct (in_asset_mode (publish_base pn)) as [[|]|e].
  - apply Hfinish.
  - destruct (in_shot_mode (publish_base pn)) as [[|]|e].
    + apply Hfinish.
    + intros [= <- <-]. split; done.
    + intros [= <- <-]. split; done.
  - intros [= <- <-]. split; done.
Qed.

(** X18.  A scene is never in asset mode and in shot mode at once; it is
    in neither when the path matches no template; and it is in exactly
    one when the template service answers with one of the four templates
    it was asked about. *)
Theorem hip_modes_exclusive (hip : string) :
  (hip_asset_mode hip && hip_shot_mode hip)%bool = false
  /\ (template_from_path hip hip_templates = None ->
      hip_asset_mode hip = false /\ hip_shot_mode hip = false)
  /\ (forall name,
      template_from_path hip hip_templates = Some name ->
      name ∈ hip_templates ->
      xorb (hip_asset_mode hip) (hip_shot_mode hip) = true).
Proof.
  unfold hip_asset_mode, hip_shot_mode.
  destruct (template_from_path hip hip_templates) as [name|]; [|done].
  split; [|split; [done|]].
  - destruct (bool_decide (name ∈ hip_asset_templates)) eqn:Ha; [|done].
    apply bool_decide_eq_true in Ha. simpl. apply bool_decide_eq_false.
    unfold hip_asset_templates, hip_shot_templates in *.
    intros Hs. repeat (apply elem_of_cons in Ha as [->|Ha]);
      try (by apply elem_of_nil in Ha);
      repeat (apply elem_of_cons in Hs as [Hs|Hs]; [discriminate Hs|]);
      by apply elem_of_nil in Hs.
  - intros ? [= <-] Hin. unfold hip_templates in Hin.
    repeat (apply elem_of_cons in Hin as [->|Hin]); try (by apply elem_of_nil in Hin);
      vm_compute; reflexivity.
Qed.

(** X19.  [auto_generate_asset_usd] publishes exactly when the node is in
    asset mode and the selected task converts to an integer, and then
    once, for the asset and variant of that task.  In every other case it
    raises and publishes nothing: what reading the mode or the selection
    raised, what [int] raised for a task that does not convert, and a
    [RuntimeError] outside asset mode. *)
Theorem auto_generate_asset_usd_cases (st : Node) :
  (forall task task_id,
     in_asset_mode st = Ok true ->
     get_selection "task" false st = Ok task ->
     py_int task = Ok task_id ->
     auto_generate_asset_usd st
     = (Ok tt, [(asset_id_from_task_id task_id, variant_name_from_task task_id)]))
  /\ (forall task e,
      in_asset_mode st = Ok true ->
      get_selection "task" false st = Ok task ->
      py_int task = Raise e ->
      auto_generate_asset_usd st = (Raise e, []))
  /\ (forall e,
      in_asset_mode st = Ok true ->
      get_selection "task" false st = Raise e ->
      auto_generate_asset_usd st = (Raise e, []))
  /\ (forall e,
      in_asset_mode st = Raise e ->
      auto_generate_asset_usd st = (Raise e, []))
  /\ (in_asset_mode st = Ok false ->
      (exists e, auto_generate_asset_usd st = (Raise e, []))
      /\ forall task task_id,
           selected_task st = Ok task ->
           py_int task = Ok task_id ->
           auto_generate_asset_usd st
           = (Raise (RuntimeError "Can only be run when operating in asset mode."), []))
  /\ (forall r calls,
      auto_generate_asset_usd st = (r, calls) ->
      (r = Ok tt
       /\ in_asset_mode st = Ok true
       /\ exists task task_id,
            get_selection "task" false st = Ok task
            /\ py_int task = Ok task_id
            /\ calls = [(asset_id_from_task_id task_id, variant_name_from_task task_id)])
      \/ ((exists e, r = Raise e) /\ calls = [])).
Proof.
  unfold auto_generate_asset_usd. split; [|split; [|split; [|split; [|split]]]].
  - intros task task_id Ha Ht Hz. unfold selected_task. rewrite Ha. simpl.
    by rewrite Ht, Hz.
  - intros task e Ha Ht Hz. unfold selected_task. rewrite Ha. simpl.
    by rewrite Ht, Hz.
  - intros e Ha Ht. unfold selected_task. rewrite Ha. simpl. by rewrite Ht.
  - intros e Ha. unfold selected_task. by rewrite Ha.
  - intros Ha. split.
    + rewrite Ha. destruct (selected_task st) as [task|e]; [|eauto].
      destruct (py_int task); eauto.
    + intros task task_id Ht Hz. by rewrite Ht, Hz, Ha.
  - intros r calls.
    destruct (selected_task st) as [task|e] eqn:Ht; [|intros [= <- <-]; right; eauto].
    destruct (py_int task) as [z|e] eqn:Hz; [|intros [= <- <-]; right; eauto].
    destruct (in_asset_mode st) as [[|]|e] eqn:Ha; intros [= <- <-].
    + left. split; [done|]. split; [done|]. exists task, z.
      unfold selected_task in Ht. rewrite Ha in Ht. simpl in Ht. done.
    + right. eauto.
    + right. eauto.
Qed.

End Model.

(** * Concrete scenarios *)

Example py_int_examples :
  py_int <$> [PyStr "77"; PyStr " 12 "; PyStr "-5"; PyStr "abc"; PyStr ""; PyNone; PyInt 4]
  = [Ok 77; Ok 12; Ok (-5); Raise ValueError; Raise ValueError; Raise TypeError; Ok 4].
Proof. reflexivity. Qed.

Example py_str_examples :
  py_str <$> [PyNone; PyInt 12; PyInt (-3); PyStr "hero"] = ["None"; "12"; "-3"; "hero"].
Proof. reflexivity. Qed.

Example dirname_examples :
  dirname <$> ["/jobs/show/usd/v004/sh010.usd"; "sh010.usd"; "/sh010.usd"; "/a/b/"]
  = ["/jobs/show/usd/v004"; ""; "/"; "/a/b"].
Proof. reflexivity. Qed.

(** A scene context that resolves nothing. *)
Definition no_context : string -> Res PyVal := fun _ => Ok PyNone.

(** A node with the given parameters, editability and menus. *)
Definition node_of (ps : list (string * PyVal)) (is_editable : bool)
    (ms : list (string * Menu)) : Node :=
  mkNode (list_to_map ps) is_editable (list_to_map ms)
         [] [] false PyNone PyNone PyNone [].

(** ** Menus *)

(** An editable node whose asset menu shows asset 12. *)
Definition asset_selected : Node :=
  node_of [("asset", PyStr "12")] true
          [("asset", mkMenu ["12"; "hero"] (PyStr "12"))].

(** A locked node whose asset type parameter names a type the tracking
    service does not list. *)
Definition locked_unknown_type : Node :=
  node_of [("asset_type", PyStr "Vehicle")] false
          [("asset_type", mkMenu [] PyNone)].

Definition two_asset_types : list dict :=
  [ {[ "name" := PyStr "Character" ]}; {[ "name" := PyStr "Prop" ]} ].

(** A locked node with nothing selected. *)
Definition locked_unset : Node :=
  node_of [("asset_type", PyStr "")] false
          [("asset_type", mkMenu [] PyNone)].

Lemma set_value_spec_witness :
  exists st',
    set_value "asset" (PyInt 7) asset_selected = (Ok tt, st')
    /\ value <$> (menus st' !! "asset") = Some (PyInt 7)
    /\ (editable asset_selected = true ->
        parms st' = <["asset" := PyStr (py_str (PyInt 7))]> (parms asset_selected)
        /\ trace st' = trace asset_selected ++ [ParmSet "asset" (py_str (PyInt 7))])
    /\ (editable asset_selected = false ->
        parms st' = parms asset_selected /\ trace st' = trace asset_selected).
Proof.
  apply (set_value_spec "asset" (PyInt 7) asset_selected
           (mkMenu ["12"; "hero"] (PyStr "12")) (PyStr "12")); reflexivity.
Defined.

Lemma generate_menu_locked_empty_raises_witness :
  generate_menu no_context "asset_type" [] "name" "name" false false locked_unset
  = (Raise IndexError, locked_unset).
Proof.
  apply (generate_menu_locked_empty_raises no_context "asset_type" "name" "name"
           false false locked_unset PyNone); reflexivity.
Defined.

(** C2, counterexample.  Regenerating the asset menu from no records
    leaves the selection at asset 12: the menu is empty, but the stored
    value, the parameter and the selection read back are all ["12"]. *)
Lemma generate_menu_empty_keeps_selection :
  exists st',
    generate_menu no_context "asset" [] "id" "code" false false asset_selected
    = (Ok tt, st')
    /\ menus st' !! "asset" = Some (mkMenu [] (PyStr "12"))
    /\ parms st' !! "asset" = Some (PyStr "12")
    /\ get_selection no_context "asset" false st' = Ok (PyStr "12")
    /\ py_truthy (PyStr "12") = true.
Proof.
  eexists. split; [vm_compute; reflexivity|].
  repeat split; vm_compute; reflexivity.
Qed.

(** A scene context that resolves every parameter to 99. *)
Definition context_99 : string -> Res PyVal := fun _ => Ok (PyInt 99).

(** Two asset records, with ids 12 and 99. *)
Definition hero_and_villain : list dict :=
  [ list_to_map [("id", PyInt 12); ("code", PyStr "hero")];
    list_to_map [("id", PyInt 99); ("code", PyStr "villain")] ].

(** The node of [asset_selected] with the override of its asset menu
    switched off. *)
Definition asset_from_context : Node :=
  node_of [("asset", PyStr "12"); ("override_asset", PyInt 0)] true
          [("asset", mkMenu ["12"; "hero"] (PyStr "12"))].

(** C2, the held key against the context.  The parameter holds ["12"],
    the context says 99 and both are among the new keys.  With the
    override off the selection ends at ["99"], and so it does on a forced
    run of the overridden menu: the key held before is not preserved. *)
Lemma generate_menu_context_replaces_selection :
  (exists st',
     generate_menu context_99 "asset" hero_and_villain "id" "code" false false
       asset_from_context = (Ok tt, st')
     /\ menus st' !! "asset"
        = Some (mkMenu ["12"; "hero"; "99"; "villain"] (PyStr "99"))
     /\ parms st' !! "asset" = Some (PyStr "99"))
  /\ (exists st',
        generate_menu context_99 "asset" hero_and_villain "id" "code" false true
          asset_selected = (Ok tt, st')
        /\ menus st' !! "asset"
           = Some (mkMenu ["12"; "hero"; "99"; "villain"] (PyStr "99"))
        /\ parms st' !! "asset" = Some (PyStr "99")).
Proof.
  split; (eexists; split; [vm_compute; reflexivity|]);
    split; vm_compute; reflexivity.
Qed.

Lemma generate_menu_selection_policy_witness :
  exists st',
    generate_menu context_99 "asset" hero_and_villain "id" "code" false false
      asset_selected = (Ok tt, st')
    /\ menus st' !! "asset"
       = Some (mkMenu ["12"; "hero"; "99"; "villain"] (PyStr "12"))
    /\ parms st' !! "asset" = Some (PyStr "12")
    /\ trace st' = trace asset_selected ++ [ParmSet "asset" "12"].
Proof.
  destruct (generate_menu_selection_policy context_99 "asset" hero_and_villain
              "id" "code" false false asset_selected (PyStr "12")
              (mkMenu ["12"; "hero"] (PyStr "12")))
    as (_ & st' & m' & d & Hrun & Hm' & Hed & _ & Hmenu & Hkeys & Hin & _);
    [vm_compute; reflexivity | reflexivity | left; reflexivity |].
  pose proof (Hed eq_refl) as ->.
  destruct Hin as (Hv & Hset & _); [rewrite Hkeys; vm_compute; reflexivity|].
  destruct (Hset eq_refl) as [Hp Ht].
  exists st'. split; [exact Hrun|]. split; [|split].
  - rewrite Hm'. destruct m' as [entries v]. simpl in Hmenu, Hv.
    rewrite Hmenu, Hv. reflexivity.
  - rewrite Hp. reflexivity.
  - exact Ht.
Defined.

(** C3, counterexample.  On a locked node whose selection ["Vehicle"] is
    not among the two input records, the menu comes out with no entry at
    all, not with the first record. *)
Lemma generate_menu_locked_unknown_selection :
  get_selection no_context "asset_type" false locked_unknown_type
  = Ok (PyStr "Vehicle")
  /\ exists st',
       generate_menu no_context "asset_type" two_asset_types "name" "name"
         false false locked_unknown_type = (Ok tt, st')
       /\ menu <$> (menus st' !! "asset_type") = Some [].
Proof.
  split; [vm_compute; reflexivity|].
  eexists. split; vm_compute; reflexivity.
Qed.

Definition locked_known_type : Node :=
  node_of [("asset_type", PyStr "Prop")] false
          [("asset_type", mkMenu [] PyNone)].

Lemma generate_menu_locked_witness :
  exists st',
    generate_menu no_context "asset_type" two_asset_types "name" "name"
      false false locked_known_type = (Ok tt, st')
    /\ menu <$> (menus st' !! "asset_type") = Some ["Prop"; "Prop"].
Proof.
  destruct (generate_menu_locked no_context "asset_type" two_asset_types
              "name" "name" false false locked_known_type (PyStr "Prop")
              eq_refl eq_refl) as [H _].
  destruct (H eq_refl) as (st' & Hgen & _ & Hone & _).
  exists st'. split; [exact Hgen|].
  exact (proj1 (Hone {[ "name" := PyStr "Prop" ]} eq_refl)).
Defined.

(** ** Context resolution *)

(** A tracking service that knows asset 10, shot 20 and task 7, and a
    template service that reads task 3 from every scene path. *)
Definition demo_asset_id_from_name : PyVal -> PyVal := fun _ => PyInt 10.
Definition demo_shot_id_from_name : PyVal -> PyVal := fun _ => PyInt 20.
Definition demo_task_id_from_name : PyVal -> PyVal -> PyVal -> PyVal :=
  fun _ _ _ => PyInt 7.
Definition demo_task_id_from_path : string -> PyVal := fun _ => PyInt 3.

(** A globals node that declares neither an asset nor a shot context. *)
Definition blank_globals : gmap string PyVal :=
  list_to_map [("context", PyStr ""); ("task", PyStr "")].

(** No override; a globals node that resolves nothing; a scene path that
    resolves to task 3. *)
Definition context_blank_globals : Context :=
  mkContext (node_of [("override_custom_taskid", PyInt 0)] true [])
            (Some blank_globals) [blank_globals] "/jobs/show/sq01/sh010/fx.hip".

(** No override, no globals node, a scene path that resolves to task 3. *)
Definition context_path_only : Context :=
  mkContext (node_of [("override_custom_taskid", PyInt 0)] true [])
            None [] "/jobs/show/sq01/sh010/fx.hip".

(** The override is on and the custom task id is not a number. *)
Definition context_bad_custom : Context :=
  mkContext (node_of [("override_custom_taskid", PyInt 1);
                      ("custom_taskid", PyStr "abc")] true [])
            None [] "/jobs/show/sq01/sh010/fx.hip".

(** The override is on and gives task 5. *)
Definition context_custom_5 : Context :=
  mkContext (node_of [("override_custom_taskid", PyInt 1);
                      ("custom_taskid", PyStr "5")] true [])
            (Some blank_globals) [blank_globals] "/jobs/show/sq01/sh010/fx.hip".

Example raw_task_id_custom :
  raw_task_id demo_asset_id_from_name demo_shot_id_from_name
    demo_task_id_from_name demo_task_id_from_path context_custom_5
  = Ok (PyInt 5).
Proof. reflexivity. Qed.

Example raw_task_id_nothing_resolves :
  raw_task_id demo_asset_id_from_name demo_shot_id_from_name
    demo_task_id_from_name (fun _ => PyNone) context_path_only
  = Ok PyNone.
Proof. reflexivity. Qed.

(** C1, counterexample.  The override gives nothing, the globals source
    gives nothing and the scene path resolves to task 3, yet the result
    is [None]: a globals node that is present but does not resolve stops
    the resolution short of the path. *)
Lemma raw_task_id_stops_at_globals :
  task_id_from_custom context_blank_globals = Ok PyNone
  /\ task_id_from_globals demo_asset_id_from_name demo_shot_id_from_name
       demo_task_id_from_name context_blank_globals = Ok PyNone
  /\ task_id_from_hip demo_task_id_from_path context_blank_globals = Ok (PyInt 3)
  /\ raw_task_id demo_asset_id_from_name demo_shot_id_from_name
       demo_task_id_from_name demo_task_id_from_path context_blank_globals
     = Ok PyNone
  /\ raw_task_id demo_asset_id_from_name demo_shot_id_from_name
       demo_task_id_from_name demo_task_id_from_path context_blank_globals
     <> Ok (PyInt 3).
Proof. repeat split; try (vm_compute; reflexivity). vm_compute. discriminate. Qed.

Lemma raw_task_id_precedence_witness :
  raw_task_id demo_asset_id_from_name demo_shot_id_from_name
    demo_task_id_from_name demo_task_id_from_path context_path_only
  = Ok (PyInt 3).
Proof.
  apply (raw_task_id_precedence demo_asset_id_from_name demo_shot_id_from_name
           demo_task_id_from_name demo_task_id_from_path
           context_path_only PyNone); reflexivity.
Defined.

Lemma task_id_from_custom_parse_failure_witness :
  task_id_from_custom context_bad_custom = Raise ValueError
  /\ raw_task_id demo_asset_id_from_name demo_shot_id_from_name
       demo_task_id_from_name demo_task_id_from_path context_bad_custom
     = Raise ValueError.
Proof.
  apply (task_id_from_custom_parse_failure demo_asset_id_from_name
           demo_shot_id_from_name demo_task_id_from_name demo_task_id_from_path
           context_bad_custom (PyInt 1) "abc"); reflexivity.
Defined.

(** ** The USD publish node *)

Definition demo_next_version : list PyVal -> Z -> PyVal := fun _ _ => PyInt 4.
Definition demo_output_path : PyVal -> Z -> PyVal -> string :=
  fun _ _ _ => "/jobs/show/sq01/sh010/usd/v004/sh010.usd".
Definition demo_shot_id_from_task_id : Z -> PyVal := fun _ => PyInt 20.

(** A template service that knows no template at all. *)
Definition no_template : list PyVal -> option Exc :=
  fun _ => Some SgtkTemplateNotFoundException.

(** A publish node in shot mode; [task] is the value of its shot task
    parameter, whose menu is empty. *)
Definition shot_publish_node (task : string) : Node :=
  mkNode (list_to_map [("template", PyStr "usd_shot_publish");
                       ("shot_task", PyStr task)])
         true
         (list_to_map
            [("template",
              mkMenu ["usd_shot_publish"; "Shot (usd_shot_publish)"]
                     (PyStr "usd_shot_publish"));
             ("shot_task", mkMenu [] PyNone)])
         [] [PyStr "usd_shot_publish"] false PyNone PyNone PyNone [].

Lemma update_output_path_sticky_witness :
  exists st1,
    update_output_path no_context no_template demo_next_version demo_output_path
      (shot_publish_node "77") = (Ok tt, st1)
    /\ missing_template st1 = true
    /\ update_output_path no_context no_template demo_next_version
         demo_output_path st1 = (Ok tt, st1).
Proof.
  destruct (update_output_path_sticky no_context no_template demo_next_version
              demo_output_path (shot_publish_node "77")) as [_ H].
  destruct (H (PyStr "usd_shot_publish") eq_refl eq_refl eq_refl)
    as (st1 & H1 & H2 & _ & _ & _ & H3).
  exists st1. split; [exact H1|]. split; [exact H2|].
  exact (proj2 (H3 0%nat)).
Defined.

(** C9, counterexample.  In shot mode with no shot task selected the
    function does not return: converting the missing task raises
    [TypeError]. *)
Lemma auto_generate_shot_usd_shot_mode_raises :
  in_shot_mode no_context (shot_publish_node "") = Ok true
  /\ auto_generate_shot_usd no_context demo_shot_id_from_task_id
       (shot_publish_node "")
     = (Raise TypeError, shot_publish_node "").
Proof. split; vm_compute; reflexivity. Qed.

Lemma auto_generate_shot_usd_never_publishes_witness :
  auto_generate_shot_usd no_context demo_shot_id_from_task_id
    (shot_publish_node "77")
  = (Ok tt, shot_publish_node "77").
Proof.
  apply (proj2 (proj2 (proj2
           (auto_generate_shot_usd_never_publishes no_context
              demo_shot_id_from_task_id (shot_publish_node "77"))))
         (PyStr "77") 77); reflexivity.
Defined.

(** ** Cascading updates *)

(** A tracking service with one asset type, one asset, one step and one
    task. *)
Definition demo_asset_types : list dict := [ {[ "name" := PyStr "Character" ]} ].
Definition demo_assets : PyVal -> list dict :=
  fun _ => [ list_to_map [("id", PyInt 12); ("code", PyStr "hero")] ].
Definition demo_asset_steps : PyVal -> list dict :=
  fun _ => [ list_to_map [("step.Step.id", PyInt 3); ("step.Step.code", PyStr "anim")] ].
Definition demo_asset_tasks : PyVal -> PyVal -> list dict :=
  fun _ _ => [ list_to_map [("id", PyInt 7); ("content", PyStr "animation")] ].
Definition demo_versions : PyVal -> PyVal -> list dict := fun _ _ => [].

Definition demo_asset_cascade : M unit :=
  update_asset_types_menu no_context demo_asset_types demo_assets
    demo_asset_steps demo_asset_tasks demo_versions (PyStr "usd") false.

(** A node with asset 12, step 3 and task 7 chosen, no asset type
    chosen, and an asset type menu left over from an earlier state of the
    tracking service. *)
Definition stale_node (is_editable : bool) : Node :=
  node_of [("asset_type", PyStr ""); ("asset", PyStr "12");
           ("step", PyStr "3"); ("task", PyStr "7")]
          is_editable
          [("asset_type", mkMenu ["Retired"; "Retired"] PyNone);
           ("asset", mkMenu [] PyNone);
           ("step", mkMenu [] PyNone);
           ("task", mkMenu [] PyNone)].

Example editable_cascade_fills_menus :
  let s1 := snd (demo_asset_cascade (stale_node true)) in
  (fun q => menu <$> (menus s1 !! q)) <$> asset_chain
  = [Some ["Character"; "Character"]; Some ["12"; "hero"]; Some ["3"; "anim"];
     Some ["7"; "animation"]; None]
  /\ (fun q => parms s1 !! q) <$> ["asset_type"; "asset"; "step"; "task"]
     = [Some (PyStr "Character"); Some (PyStr "12"); Some (PyStr "3");
        Some (PyStr "7")].
Proof. split; vm_compute; reflexivity. Qed.

(** C5, counterexample.  On a locked node the two runs differ: the first
    filters the asset types by the stale first entry and leaves the menu
    empty with nothing selected; the second, finding nothing selected,
    takes the first asset type. *)
Lemma cascade_not_idempotent_locked :
  exists s1 s2,
    demo_asset_cascade (stale_node false) = (Ok tt, s1)
    /\ demo_asset_cascade s1 = (Ok tt, s2)
    /\ menu <$> (menus s1 !! "asset_type") = Some []
    /\ menu <$> (menus s2 !! "asset_type") = Some ["Character"; "Character"]
    /\ get_selection no_context "asset_type" false s1 = Ok PyNone
    /\ get_selection no_context "asset_type" false s2 = Ok (PyStr "Character")
    /\ menu <$> (menus s1 !! "asset") = Some []
    /\ menu <$> (menus s2 !! "asset") = Some ["12"; "hero"].
Proof.
  eexists _, _. split; [vm_compute; reflexivity|].
  split; [vm_compute; reflexivity|].
  repeat split; vm_compute; reflexivity.
Qed.

Lemma cascade_idempotent_editable_witness :
  exists s2,
    demo_asset_cascade (snd (demo_asset_cascade (stale_node true))) = (Ok tt, s2)
    /\ forall q,
         menu <$> (menus s2 !! q)
         = menu <$> (menus (snd (demo_asset_cascade (stale_node true))) !! q)
         /\ forall f,
              get_selection no_context q f s2
              = get_selection no_context q f
                  (snd (demo_asset_cascade (stale_node true))).
Proof.
  apply (proj1 (cascade_idempotent_editable no_context demo_asset_types
                  demo_assets demo_asset_steps demo_asset_tasks [] demo_assets
                  demo_assets demo_asset_tasks demo_versions (PyStr "usd") false
                  (stale_node true) (snd (demo_asset_cascade (stale_node true)))
                  eq_refl)).
  vm_compute. reflexivity.
Defined.

(** * Validator ordering ([pyblish/plugins], [pyblish/nodevalidator.py]) *)

Module Pyblish.

(** A plugin class, as far as ordering goes.  Python computes the keys in
    binary floating point; they are exact decimals here, and the sums
    [ValidatorOrder - 0.1], [+ 0.1], [+ 0.2] are ordered the same way in
    both. *)
Record Plugin : Type := mkPlugin {
  label : string;
  order : Q
}.

Section Ordering.

(** [pyblish.api.ValidatorOrder], a constant of the pyblish library. *)
Variable ValidatorOrder : Q.

(** [plugins/details.py] *)
Definition NodeDetails : Plugin :=
  mkPlugin "Houdini Node - Details" (ValidatorOrder - 0.1).

(** [plugins/ispublished.py] *)
Definition IsPublished : Plugin :=
  mkPlugin "Houdini Node - Published" ValidatorOrder.

(** [plugins/simple.py] *)
Definition SimpleNodeValidator : Plugin :=
  mkPlugin "Houdini Node - Simple Validator" (ValidatorOrder + 0.1).

(** [nodevalidator.py] *)
Definition ValidateNode : Plugin :=
  mkPlugin "Houdini Validate Node" (ValidatorOrder + 0.2).

(** Modelled from the spec: the pyblish framework that runs the plugins
    is not part of this repository; "stages execute in ascending key
    order; ties broken by declaration order".  That is a stable sort on
    [order]. *)
Fixpoint insert_plugin (x : Plugin) (l : list Plugin) : list Plugin :=
  match l with
  | [] => [x]
  | y :: r =>
      if Qle_bool (order x) (order y) then x :: y :: r
      else y :: insert_plugin x r
  end.

Fixpoint execution_order (declared : list Plugin) : list Plugin :=
  match declared with
  | [] => []
  | x :: r => insert_plugin x (execution_order r)
  end.

Lemma Qle_bool_true (x y : Q) : (x <= y)%Q -> Qle_bool x y = true.
Proof. apply Qle_bool_iff. Qed.

Lemma Qle_bool_false (x y : Q) : (y < x)%Q -> Qle_bool x y = false.
Proof.
  intros H. destruct (Qle_bool x y) eqn:E; [|done].
  apply Qle_bool_iff in E. lra.
Qed.

Lemma insert_plugin_nil x : insert_plugin x [] = [x].
Proof. reflexivity. Qed.

Lemma insert_plugin_cons x y r :
  insert_plugin x (y :: r)
  = if Qle_bool (order x) (order y) then x :: y :: r else y :: insert_plugin x r.
Proof. reflexivity. Qed.

Ltac order_case :=
  match goal with
  | |- context [Qle_bool ?x ?y] =>
      first [ rewrite (Qle_bool_true x y) by (simpl; lra)
            | rewrite (Qle_bool_false x y) by (simpl; lra) ]
  end.

Ltac run_plugins :=
  unfold execution_order;
  repeat first [ rewrite insert_plugin_nil
               | rewrite insert_plugin_cons; order_case ].

Ltac each_permutation H :=
  apply permutations_Permutation in H; simpl in H;
  repeat (apply elem_of_cons in H as [->|H]);
  [..|by apply elem_of_nil in H].

(** The plugin that runs first is one of those declared. *)
Lemma execution_order_head_bound (first : Plugin) (declared : list Plugin) :
  Forall (fun p => p = first \/ (order first < order p)%Q) declared ->
  forall y, head (execution_order declared) = Some y ->
  y = first \/ (order first < order y)%Q.
Proof.
  induction 1 as [|a l Ha Hl IH]; simpl; [done|].
  intros y. destruct (execution_order l) as [|z r]; simpl.
  - by intros [= <-].
  - destruct (Qle_bool (order a) (order z)); simpl; intros [= <-]; [done|].
    by apply IH.
Qed.

(** A plugin whose key is below every other key runs first. *)
Lemma execution_order_head (first : Plugin) (declared : list Plugin) :
  Forall (fun p => p = first \/ (order first < order p)%Q) declared ->
  first ∈ declared ->
  head (execution_order declared) = Some first.
Proof.
  induction 1 as [|a l Ha Hl IH]; simpl; [by intros ?%elem_of_nil|].
  intros [Hfa|Hin]%elem_of_cons.
  - subst a.
    pose proof (execution_order_head_bound first l Hl) as Hb.
    destruct (execution_order l) as [|y r]; [done|]. simpl.
    rewrite Qle_bool_true; [done|].
    destruct (Hb y eq_refl) as [->|?]; lra.
  - specialize (IH Hin).
    destruct (execution_order l) as [|y r]; [done|].
    simpl in IH. injection IH as ->. simpl.
    destruct Ha as [->|Hlt].
    + by rewrite Qle_bool_true by lra.
    + by rewrite Qle_bool_false by lra.
Qed.

(** C7.  The four node validators declare the keys [ValidatorOrder - 0.1]
    (details), [ValidatorOrder] (published), [ValidatorOrder + 0.1]
    (simple) and [ValidatorOrder + 0.2] (validate node).  Run in
    ascending key order, the details plugin comes first among any
    validators whose keys are at or above [ValidatorOrder]; the four run
    in the order details, published, simple, validate node; and any three
    plugins with the keys [ValidatorOrder + 0.2], [- 0.1] and [+ 0.0] run
    in the order [-0.1, 0.0, 0.2], however they were declared. *)
Theorem validator_execution_order :
  (order NodeDetails = (ValidatorOrder - 0.1)%Q
   /\ order IsPublished = ValidatorOrder
   /\ order SimpleNodeValidator = (ValidatorOrder + 0.1)%Q
   /\ order ValidateNode = (ValidatorOrder + 0.2)%Q)
  /\ (forall declared,
      NodeDetails ∈ declared ->
      Forall (fun p => p = NodeDetails \/ (ValidatorOrder <= order p)%Q) declared ->
      head (execution_order declared) = Some NodeDetails)
  /\ (forall declared,
      declared ≡ₚ [NodeDetails; IsPublished; SimpleNodeValidator; ValidateNode] ->
      execution_order declared
      = [NodeDetails; IsPublished; SimpleNodeValidator; ValidateNode])
  /\ (forall a b c declared,
      (order a == ValidatorOrder + 0.2)%Q ->
      (order b == ValidatorOrder - 0.1)%Q ->
      (order c == ValidatorOrder + 0.0)%Q ->
      declared ≡ₚ [a; b; c] ->
      execution_order declared = [b; c; a]).
Proof.
  split; [done|]. split; [|split].
  - intros declared Hin Hall.
    apply (execution_order_head NodeDetails declared); [|done].
    eapply Forall_impl; [exact Hall|].
    intros p [->|Hp]; [by left|right]. simpl. lra.
  - intros declared H. symmetry in H. each_permutation H; run_plugins; done.
  - intros a b c declared Ha Hb Hc H. symmetry in H.
    each_permutation H; run_plugins; done.
Qed.

End Ordering.

Lemma validator_execution_order_witness :
  execution_order [ValidateNode 1; NodeDetails 1; IsPublished 1]
  = [NodeDetails 1; IsPublished 1; ValidateNode 1].
Proof.
  apply (proj2 (proj2 (proj2 (validator_execution_order 1)))
           (ValidateNode 1) (NodeDetails 1) (IsPublished 1)
           [ValidateNode 1; NodeDetails 1; IsPublished 1]);
    reflexivity.
Defined.

End Pyblish.

(** * One node object per node ([shotgun/node.py], [get_shotgun_node]) *)

Module NodeCache.

Section Cache.

(** The class of the node object ([ShotgunNode] or a subclass). *)
Variable Instance : Type.

(** What the code stores in [cachedUserData]: the flag ["sg_init"] and
    the object ["sg_node"]. *)
Inductive Cached : Type :=
| Flag (b : bool)
| Obj (o : Instance).

(** [cachedUserData(name)] is [None] for a name that was never set. *)
Definition cached_truthy (v : option Cached) : bool :=
  match v with
  | None => false
  | Some (Flag b) => b
  | Some (Obj _) => true
  end.

(** [get_shotgun_node].  [construct] is what [cls(current_node)] does if
    it is called now: it returns an object or raises.  The result comes
    with the cache the call leaves and the number of times it called the
    constructor. *)
Definition get_shotgun_node (construct : Res Instance)
    (cache : gmap string Cached)
  : Res (option Cached) * gmap string Cached * nat :=
  if negb (cached_truthy (cache !! "sg_init"))
  then
    let cache := <["sg_init" := Flag true]> cache in
    match construct with
    | Ok sg_node => (Ok (Some (Obj sg_node)), <["sg_node" := Obj sg_node]> cache, 1%nat)
    | Raise e => (Raise e, cache, 1%nat)
    end
  else (Ok (cache !! "sg_node"), cache, 0%nat).

(** [initialise], the older way in. *)
Definition initialise (construct : Res Instance) (cache : gmap string Cached)
  : Res unit * gmap string Cached * nat :=
  let cache := <["sg_init" := Flag true]> cache in
  match construct with
  | Ok sg_node => (Ok tt, <["sg_node" := Obj sg_node]> cache, 1%nat)
  | Raise e => (Raise e, cache, 1%nat)
  end.

(** X20.  A node gets one object: once [get_shotgun_node] (or
    [initialise]) has built it, every later [get_shotgun_node] returns
    that same object, leaves the cache alone and does not call the
    constructor, whatever the constructor would do. *)
Theorem get_shotgun_node_once
    (cache : gmap string Cached) (sg_node : Instance) :
  cached_truthy (cache !! "sg_init") = false ->
  exists cache1,
    get_shotgun_node (Ok sg_node) cache = (Ok (Some (Obj sg_node)), cache1, 1%nat)
    /\ (forall construct,
        get_shotgun_node construct cache1 = (Ok (Some (Obj sg_node)), cache1, 0%nat))
    /\ exists cache2,
         initialise (Ok sg_node) cache = (Ok tt, cache2, 1%nat)
         /\ forall construct,
              get_shotgun_node construct cache2
              = (Ok (Some (Obj sg_node)), cache2, 0%nat).
Proof.
  intros Hinit. unfold get_shotgun_node, initialise. rewrite Hinit. simpl.
  eexists. split; [reflexivity|]. split.
  - intros construct.
    rewrite lookup_insert_ne by done. rewrite lookup_insert_eq. simpl.
    by rewrite lookup_insert_eq.
  - eexists. split; [reflexivity|]. intros construct.
    rewrite lookup_insert_ne by done. rewrite lookup_insert_eq. simpl.
    by rewrite lookup_insert_eq.
Qed.

(** X21.  A failed construction is not retried: the flag is set before
    the constructor runs, so after a call in which the constructor
    raised, every later call returns what the cache holds under
    ["sg_node"] ([None] on a fresh node) without calling the
    constructor. *)
Theorem get_shotgun_node_failure_sticks
    (cache : gmap string Cached) (e : Exc) :
  cached_truthy (cache !! "sg_init") = false ->
  exists cache1,
    get_shotgun_node (Raise e) cache = (Raise e, cache1, 1%nat)
    /\ forall construct,
         get_shotgun_node construct cache1 = (Ok (cache !! "sg_node"), cache1, 0%nat).
Proof.
  intros Hinit. unfold get_shotgun_node. rewrite Hinit. simpl.
  eexists. split; [reflexivity|]. intros construct.
  rewrite lookup_insert_eq. simpl. by rewrite lookup_insert_ne.
Qed.

End Cache.

Lemma get_shotgun_node_once_witness :
  exists cache1,
    get_shotgun_node nat (Ok 7%nat) ∅ = (Ok (Some (Obj nat 7%nat)), cache1, 1%nat)
    /\ get_shotgun_node nat (Raise AttributeError) cache1
       = (Ok (Some (Obj nat 7%nat)), cache1, 0%nat).
Proof.
  destruct (get_shotgun_node_once nat ∅ 7%nat) as (cache1 & H1 & H2 & _);
    [reflexivity|].
  exists cache1. split; [exact H1|apply H2].
Defined.

Lemma get_shotgun_node_failure_sticks_witness :
  exists cache1,
    get_shotgun_node nat (Raise AttributeError) ∅ = (Raise AttributeError, cache1, 1%nat)
    /\ get_shotgun_node nat (Ok 7%nat) cache1 = (Ok None, cache1, 0%nat).
Proof.
  destruct (get_shotgun_node_failure_sticks nat ∅ AttributeError)
    as (cache1 & H1 & H2); [reflexivity|].
  exists cache1. split; [exact H1|apply H2].
Defined.

End NodeCache.

(** * Collecting nodes for validation ([pyblish/nodevalidator.py],
      [pyblish/plugins/collectnodes.py], [pyblish/plugins/simple.py]) *)

Module PyblishNodes.

(** An attribute of a node's Python module ([node.hm()]): a list of
    names, a function with the outcome of calling it on the node, or
    anything else. *)
Inductive HmValue : Type :=
| HmList (items : list string)
| HmCallable (outcome : Res unit)
| HmOther.

(** A Houdini node as this code sees it.  [is_digital_asset] is the
    answer of [nodes.is_digital_asset(path)], a helper of this package
    whose source is not at hand. *)
Record HouNode : Type := mkHouNode {
  path : string;
  name : string;
  type_name : string;
  is_digital_asset : bool;
  hm : gmap string HmValue
}.

(** [get_validate_plugins]. *)
Definition get_validate_plugins (current_node : HouNode) : list string :=
  match hm current_node !! "pyblish_plugins" with
  | Some (HmList pyblish_plugins) => pyblish_plugins
  | _ => []
  end.

(** [hasattr(node.hm(), hook)] and [callable(...)]: [get_simple_validate],
    [has_validate_method] and [has_fix_method]. *)
Definition has_hook (hook : string) (current_node : HouNode) : bool :=
  match hm current_node !! hook with
  | Some (HmCallable _) => true
  | _ => false
  end.

Definition get_simple_validate : HouNode -> bool := has_hook "pyblish_validate".

Definition non_empty {A} (l : list A) : bool :=
  match l with [] => false | _ => true end.

(** [can_validate]. *)
Fixpoint can_validate (node_list : list HouNode) : bool :=
  match node_list with
  | [] => false
  | node :: rest =>
      if is_digital_asset node
      then if non_empty (get_validate_plugins node) then true
           else if get_simple_validate node then true
           else can_validate rest
      else can_validate rest
  end.

(** A Python [dict] in insertion order: [d[k] = v] replaces the value of
    a key that is there and appends a new key. *)
Fixpoint dict_set {V} (k : string) (v : V) (d : list (string * V)) : list (string * V) :=
  match d with
  | [] => [(k, v)]
  | (k', v') :: rest =>
      if bool_decide (k = k') then (k, v) :: rest
      else (k', v') :: dict_set k v rest
  end.

(** The loop [register_plugin(getattr(node.hm(), plugin))], with the
    names registered so far.  [getattr] raises for a name the module
    does not have; [pyblish.api.register_plugin] itself is taken to
    accept what it is given (it refuses a value that is not a plug-in
    class, so the code can raise where this loop goes on; what is proved
    below is about a dictionary that was returned). *)
Fixpoint register_plugins (node : HouNode) (plugins registered : list string)
  : Res unit * list string :=
  match plugins with
  | [] => (Ok tt, registered)
  | plugin :: rest =>
      match hm node !! plugin with
      | None => (Raise AttributeError, registered)
      | Some _ => register_plugins node rest (registered ++ [plugin])
      end
  end.

(** The family list [generate_node_dict] builds for a digital asset. *)
Definition family_of (node : HouNode) : list string :=
  (if non_empty (get_validate_plugins node) then [type_name node] else [])
  ++ (if get_simple_validate node then ["simple"] else [])
  ++ ["generic"].

(** The loop of [generate_node_dict]; each path of [node_list] stands
    here as the node it names. *)
Fixpoint generate_from (node_list : list HouNode)
    (node_dict : list (string * list string)) (registered : list string)
  : Res (list (string * list string)) * list string :=
  match node_list with
  | [] => (Ok node_dict, registered)
  | node :: rest =>
      if negb (is_digital_asset node) then generate_from rest node_dict registered
      else
        match register_plugins node (get_validate_plugins node) registered with
        | (Raise e, registered) => (Raise e, registered)
        | (Ok _, registered) =>
            generate_from rest (dict_set (path node) (family_of node) node_dict)
              registered
        end
  end.

Definition generate_node_dict (node_list : list HouNode)
  : Res (list (string * list string)) * list string :=
  generate_from node_list [] [].

(** A pyblish instance as [CollectNodes] fills it. *)
Record Instance : Type := mkInstance {
  inst_name : string;
  family : string;
  members : list HouNode;
  families : list string
}.

(** [CollectNodes.process], over the entries of [all_nodes] and the
    nodes of the scene by path. *)
Fixpoint collect (all_nodes : list (string * list string))
    (scene : gmap string HouNode) : Res (list Instance) :=
  match all_nodes with
  | [] => Ok []
  | (node_path, node_families) :: rest =>
      match scene !! node_path with
      | None => Raise AttributeError
      | Some node =>
          match node_families with
          | [] => Raise IndexError
          | first :: others =>
              let+ instances := collect rest scene in
              Ok (mkInstance (name node) first [node] others :: instances)
          end
      end
  end.

(** The loops of [SimpleNodeValidator.process] ([hook] is
    ["pyblish_validate"]) and [auto_fix] ([hook] is ["pyblish_fix"]),
    with the paths of the nodes whose hook was called. *)
Fixpoint run_hook (hook : string) (instance : list HouNode) : Res unit * list string :=
  match instance with
  | [] => (Ok tt, [])
  | node :: rest =>
      match hm node !! hook with
      | Some (HmCallable (Ok _)) =>
          let (r, called) := run_hook hook rest in (r, path node :: called)
      | Some (HmCallable (Raise e)) => (Raise e, [path node])
      | _ => run_hook hook rest
      end
  end.

Definition process : list HouNode -> Res unit * list string :=
  run_hook "pyblish_validate".

Definition auto_fix : list HouNode -> Res unit * list string :=
  run_hook "pyblish_fix".

Lemma dict_set_elem {V} k (v : V) d p w :
  (p, w) ∈ dict_set k v d -> (p = k /\ w = v) \/ (p, w) ∈ d.
Proof.
  induction d as [|[k' v'] rest IH]; simpl.
  - intros [[= -> ->]|?%elem_of_nil]%elem_of_cons; [by left|done].
  - destruct (bool_decide (k = k')) eqn:Hk.
    + intros [[= -> ->]|H]%elem_of_cons; [by left|]. right. by right.
    + intros [[= -> ->]|H]%elem_of_cons; [right; by left|].
      destruct (IH H) as [?|?]; [by left|]. right. by right.
Qed.

Lemma dict_set_keys {V} k (v : V) d :
  forall p, p ∈ (dict_set k v d).*1 <-> p = k \/ p ∈ d.*1.
Proof.
  induction d as [|[k' v'] rest IH]; simpl; intros p.
  - rewrite elem_of_cons. split; intros [?|?]; eauto.
  - destruct (bool_decide (k = k')) eqn:Hk; simpl.
    + apply bool_decide_eq_true in Hk as <-. rewrite !elem_of_cons. tauto.
    + rewrite !elem_of_cons, IH. tauto.
Qed.

Lemma dict_set_NoDup {V} k (v : V) d : NoDup d.*1 -> NoDup (dict_set k v d).*1.
Proof.
  induction d as [|[k' v'] rest IH]; simpl; intros Hnd.
  - apply NoDup_singleton.
  - apply NoDup_cons in Hnd as [Hk' Hnd].
    destruct (bool_decide (k = k')) eqn:Hk; simpl.
    + apply bool_decide_eq_true in Hk as <-. by apply NoDup_cons.
    + apply bool_decide_eq_false in Hk. apply NoDup_cons. split; [|by apply IH].
      rewrite dict_set_keys. intros [?|?]; [congruence|done].
Qed.

(** What the loop of [generate_node_dict] keeps true of the dictionary. *)
Lemma generate_from_invariant node_list node_dict registered d regs
    (seen : list HouNode) :
  generate_from node_list node_dict registered = (Ok d, regs) ->
  NoDup node_dict.*1 ->
  (forall p fam, (p, fam) ∈ node_dict ->
     exists n, n ∈ seen /\ path n = p /\ is_digital_asset n = true /\ fam = family_of n) ->
  NoDup d.*1
  /\ (forall p fam, (p, fam) ∈ d ->
      exists n, n ∈ seen ++ node_list /\ path n = p
                /\ is_digital_asset n = true /\ fam = family_of n)
  /\ (forall p, p ∈ node_dict.*1 -> p ∈ d.*1)
  /\ (forall n, n ∈ node_list -> is_digital_asset n = true -> path n ∈ d.*1).
Proof.
  revert node_dict registered seen.
  induction node_list as [|node rest IH]; simpl; intros node_dict registered seen.
  { intros [= <- <-] Hnd Hinv. split; [done|]. split; [|split; [done|]].
    - intros p fam Hin. destruct (Hinv p fam Hin) as (n & ? & ?).
      exists n. by rewrite app_nil_r.
    - by intros n ?%elem_of_nil. }
  destruct (is_digital_asset node) eqn:Hda; simpl.
  - destruct (register_plugins node (get_validate_plugins node) registered)
      as [[[]|e] regs1]; [|done].
    intros Hrun Hnd Hinv.
    destruct (IH _ _ (seen ++ [node]) Hrun (dict_set_NoDup _ _ _ Hnd))
      as (Hnd' & Hall & Hkeys & Hda').
    { intros p fam [[-> ->]|Hin]%dict_set_elem.
      - exists node. split; [apply elem_of_app; right; by left|done].
      - destruct (Hinv p fam Hin) as (n & Hn & ?).
        exists n. split; [apply elem_of_app; by left|done]. }
    split; [done|]. split; [|split].
    + intros p fam Hin. destruct (Hall p fam Hin) as (n & Hn & ?).
      exists n. split; [|done]. by rewrite <- app_assoc in Hn.
    + intros p Hp. apply Hkeys, dict_set_keys. by right.
    + intros n [->|Hn]%elem_of_cons Hn'; [|by apply Hda'].
      apply Hkeys, dict_set_keys. by left.
  - intros Hrun Hnd Hinv.
    destruct (IH _ _ (seen ++ [node]) Hrun Hnd) as (Hnd' & Hall & Hkeys & Hda').
    { intros p fam Hin. destruct (Hinv p fam Hin) as (n & Hn & ?).
      exists n. split; [apply elem_of_app; by left|done]. }
    split; [done|]. split; [|split; [done|]].
    + intros p fam Hin. destruct (Hall p fam Hin) as (n & Hn & ?).
      exists n. split; [|done]. by rewrite <- app_assoc in Hn.
    + intros n [->|Hn]%elem_of_cons Hn'; [congruence|by apply Hda'].
Qed.

Lemma family_of_last node : last (family_of node) = Some "generic".
Proof.
  unfold family_of. rewrite !last_app. done.
Qed.

(** X22.  Every entry of the dictionary [generate_node_dict] returns
    belongs to a digital asset of the node list, no path occurs twice,
    and its family list is: the node type when the node declares
    plugins, then ["simple"] when it has a validate function, then
    ["generic"]; so the list is never empty and always ends with
    ["generic"].  Nodes that are not digital assets get no entry of
    their own. *)
Theorem generate_node_dict_families
    (node_list : list HouNode) (d : list (string * list string))
    (registered : list string) :
  generate_node_dict node_list = (Ok d, registered) ->
  NoDup d.*1
  /\ (forall p fam, (p, fam) ∈ d ->
      last fam = Some "generic"
      /\ exists n, n ∈ node_list /\ path n = p
                   /\ is_digital_asset n = true /\ fam = family_of n)
  /\ (forall n, n ∈ node_list -> is_digital_asset n = true -> path n ∈ d.*1).
Proof.
  intros Hrun.
  destruct (generate_from_invariant node_list [] [] d registered [] Hrun)
    as (Hnd & Hall & _ & Hda).
  { apply NoDup_nil_2. }
  { by intros p fam ?%elem_of_nil. }
  split; [done|]. split; [|done].
  intros p fam Hin. destruct (Hall p fam Hin) as (n & Hn & Hp & Hd & ->).
  split; [apply family_of_last|]. by exists n.
Qed.

Lemma can_validate_true node_list :
  can_validate node_list = true <->
  exists n, n ∈ node_list /\ is_digital_asset n = true
            /\ (non_empty (get_validate_plugins n) = true \/ get_simple_validate n = true).
Proof.
  induction node_list as [|node rest IH]; simpl.
  { split; [done|]. by intros (n & ?%elem_of_nil & _). }
  destruct (is_digital_asset node) eqn:Hda.
  - destruct (non_empty (get_validate_plugins node)) eqn:Hp.
    { split; [|done]. intros _. exists node. split; [by left|]. eauto. }
    destruct (get_simple_validate node) eqn:Hs.
    { split; [|done]. intros _. exists node. split; [by left|]. eauto. }
    rewrite IH. split.
    + intros (n & Hn & ?). exists n. split; [by right|done].
    + intros (n & [->|Hn]%elem_of_cons & Hd & H); [destruct H; congruence|].
      by exists n.
  - rewrite IH. split.
    + intros (n & Hn & ?). exists n. split; [by right|done].
    + intros (n & [->|Hn]%elem_of_cons & Hd & H); [congruence|]. by exists n.
Qed.

Lemma family_of_generic node :
  family_of node = ["generic"] <->
  non_empty (get_validate_plugins node) = false /\ get_simple_validate node = false.
Proof.
  unfold family_of.
  destruct (non_empty (get_validate_plugins node)),
    (get_simple_validate node); simpl; split; try done; try (by intros [? ?]).
Qed.

(** X23.  [can_validate] and [generate_node_dict] agree: when the
    paths of the node list name one node each and the dictionary is
    built, validation is possible exactly when some entry carries a
    family besides ["generic"]. *)
Theorem can_validate_iff_families
    (node_list : list HouNode) (d : list (string * list string))
    (registered : list string) :
  generate_node_dict node_list = (Ok d, registered) ->
  (forall n n', n ∈ node_list -> n' ∈ node_list -> path n = path n' -> n = n') ->
  can_validate node_list = true
  <-> exists p fam, (p, fam) ∈ d /\ fam <> ["generic"].
Proof.
  intros Hrun Hfun.
  destruct (generate_node_dict_families _ _ _ Hrun) as (Hnd & Hall & Hda).
  rewrite can_validate_true. split.
  - intros (n & Hn & Hd & Hv).
    apply Hda in Hd as Hkey; [|done].
    apply list_elem_of_fmap in Hkey as ([p fam] & Hp & Hin). simpl in Hp.
    exists p, fam. split; [done|].
    destruct (Hall p fam Hin) as (_ & n' & Hn' & Hp' & _ & ->).
    assert (n' = n) as -> by (apply Hfun; congruence).
    rewrite family_of_generic. intros [? ?]. destruct Hv; congruence.
  - intros (p & fam & Hin & Hne).
    destruct (Hall p fam Hin) as (_ & n & Hn & _ & Hd & ->).
    exists n. split; [done|]. split; [done|].
    destruct (non_empty (get_validate_plugins n)) eqn:Hp; [by left|right].
    destruct (get_simple_validate n) eqn:Hs; [done|].
    exfalso. apply Hne. by apply family_of_generic.
Qed.

(** X24.  [CollectNodes] never runs out of families on a dictionary
    that [generate_node_dict] built: when every node of the list is in
    the scene under its path, it returns one instance per entry, each
    holding its node, named after it, and splitting the node's family
    list into the first family and the rest. *)
Theorem collect_generated
    (node_list : list HouNode) (d : list (string * list string))
    (registered : list string) (scene : gmap string HouNode) :
  generate_node_dict node_list = (Ok d, registered) ->
  (forall n, n ∈ node_list -> scene !! path n = Some n) ->
  exists instances,
    collect d scene = Ok instances
    /\ length instances = length d
    /\ forall i, i ∈ instances ->
         exists n, n ∈ node_list
                   /\ members i = [n] /\ inst_name i = name n
                   /\ family i :: families i = family_of n.
Proof.
  intros Hrun Hscene.
  destruct (generate_node_dict_families _ _ _ Hrun) as (_ & Hall & _).
  assert (Hd : forall p fam, (p, fam) ∈ d ->
            exists n, n ∈ node_list /\ scene !! p = Some n /\ fam = family_of n).
  { intros p fam Hin. destruct (Hall p fam Hin) as (_ & n & Hn & <- & _ & ->).
    exists n. eauto. }
  clear Hall Hrun. induction d as [|[p fam] rest IH]; simpl.
  { exists []. split; [done|]. split; [done|]. by intros i ?%elem_of_nil. }
  destruct (Hd p fam) as (n & Hn & Hs & ->); [by left|].
  rewrite Hs.
  destruct IH as (instances & Hrest & Hlen & Hinst).
  { intros p' fam' Hin. apply Hd. by right. }
  destruct (family_of n) as [|first others] eqn:Hfam.
  { pose proof (family_of_last n) as Hl. by rewrite Hfam in Hl. }
  rewrite Hrest. simpl. eexists. split; [reflexivity|].
  split; [simpl; by rewrite Hlen|].
  intros i [->|Hi]%elem_of_cons; [|by apply Hinst].
  exists n. rewrite Hfam. done.
Qed.

Lemma run_hook_app_fail hook before node after e :
  (forall m e', m ∈ before -> hm m !! hook <> Some (HmCallable (Raise e'))) ->
  hm node !! hook = Some (HmCallable (Raise e)) ->
  run_hook hook (before ++ node :: after)
  = (Raise e, path <$> filter (fun m => has_hook hook m = true) (before ++ [node])).
Proof.
  intros Hbefore Hnode. induction before as [|m before IH]; simpl.
  - rewrite Hnode. rewrite filter_cons_True by (unfold has_hook; by rewrite Hnode).
    done.
  - assert (Hm : forall e', hm m !! hook <> Some (HmCallable (Raise e')))
      by (intros e'; apply Hbefore; by left).
    rewrite IH by (intros m' e' ?; apply Hbefore; by right).
    destruct (hm m !! hook) as [[items|[[]|e']|]|] eqn:Hh.
    + by rewrite filter_cons_False by (unfold has_hook; by rewrite Hh).
    + by rewrite filter_cons_True by (unfold has_hook; by rewrite Hh).
    + by destruct (Hm e').
    + by rewrite filter_cons_False by (unfold has_hook; by rewrite Hh).
    + by rewrite filter_cons_False by (unfold has_hook; by rewrite Hh).
Qed.

(** X25.  The simple validator (and its auto-fix) takes the nodes in
    order, skips the ones without a callable hook, and stops at the
    first hook that raises: when no hook raises it returns after calling
    the hook of every node that has one; otherwise it raises what the
    first failing hook raised, and no hook of a later node is called. *)
Theorem run_hook_order (hook : string) (instance : list HouNode) :
  ((forall m e', m ∈ instance -> hm m !! hook <> Some (HmCallable (Raise e'))) ->
   run_hook hook instance
   = (Ok tt, path <$> filter (fun m => has_hook hook m = true) instance))
  /\ (forall before node after e,
      instance = before ++ node :: after ->
      (forall m e', m ∈ before -> hm m !! hook <> Some (HmCallable (Raise e'))) ->
      hm node !! hook = Some (HmCallable (Raise e)) ->
      run_hook hook instance
      = (Raise e,
         path <$> filter (fun m => has_hook hook m = true) (before ++ [node]))).
Proof.
  split.
  - induction instance as [|m rest IH]; simpl; [done|]. intros Hall.
    assert (Hm : forall e', hm m !! hook <> Some (HmCallable (Raise e')))
      by (intros e'; apply Hall; by left).
    rewrite IH by (intros m' e' ?; apply Hall; by right).
    destruct (hm m !! hook) as [[items|[[]|e']|]|] eqn:Hh.
    + by rewrite filter_cons_False by (unfold has_hook; by rewrite Hh).
    + by rewrite filter_cons_True by (unfold has_hook; by rewrite Hh).
    + by destruct (Hm e').
    + by rewrite filter_cons_False by (unfold has_hook; by rewrite Hh).
    + by rewrite filter_cons_False by (unfold has_hook; by rewrite Hh).
  - intros before node after e -> Hb Hn. by apply run_hook_app_fail.
Qed.

(** ** A small scene *)

Definition demo_hda : HouNode :=
  mkHouNode "/obj/geo1" "geo1" "rbl::cache" true
    (list_to_map [("pyblish_validate", HmCallable (Ok tt))]).

Definition demo_plain : HouNode :=
  mkHouNode "/obj/null1" "null1" "null" false ∅.

Definition demo_failing : HouNode :=
  mkHouNode "/obj/geo2" "geo2" "rbl::cache" true
    (list_to_map [("pyblish_validate", HmCallable (Raise (RuntimeError "invalid")))]).

Definition demo_scene : gmap string HouNode :=
  list_to_map [("/obj/geo1", demo_hda); ("/obj/null1", demo_plain)].

Definition demo_dict : list (string * list string) :=
  [("/obj/geo1", ["simple"; "generic"])].

Lemma generate_node_dict_families_witness :
  NoDup demo_dict.*1
  /\ (forall p fam, (p, fam) ∈ demo_dict ->
      last fam = Some "generic"
      /\ exists n, n ∈ [demo_plain; demo_hda] /\ path n = p
                   /\ is_digital_asset n = true /\ fam = family_of n)
  /\ (forall n, n ∈ [demo_plain; demo_hda] -> is_digital_asset n = true ->
      path n ∈ demo_dict.*1).
Proof.
  apply (generate_node_dict_families [demo_plain; demo_hda] demo_dict []).
  vm_compute. reflexivity.
Defined.

Lemma can_validate_iff_families_witness :
  can_validate [demo_plain; demo_hda] = true
  <-> exists p fam, (p, fam) ∈ demo_dict /\ fam <> ["generic"].
Proof.
  apply (can_validate_iff_families [demo_plain; demo_hda] demo_dict []).
  - vm_compute. reflexivity.
  - intros n n' Hn Hn' Hp.
    repeat (apply elem_of_cons in Hn as [->|Hn]);
      repeat (apply elem_of_cons in Hn' as [->|Hn']);
      try reflexivity; try discriminate Hp;
      try (by apply elem_of_nil in Hn); by apply elem_of_nil in Hn'.
Defined.

Lemma collect_generated_witness :
  exists instances,
    collect demo_dict demo_scene = Ok instances
    /\ length instances = length demo_dict
    /\ forall i, i ∈ instances ->
         exists n, n ∈ [demo_plain; demo_hda]
                   /\ members i = [n] /\ inst_name i = name n
                   /\ family i :: families i = family_of n.
Proof.
  apply (collect_generated [demo_plain; demo_hda] demo_dict [] demo_scene).
  - vm_compute. reflexivity.
  - intros n Hn.
    repeat (apply elem_of_cons in Hn as [->|Hn]);
      try (vm_compute; reflexivity); by apply elem_of_nil in Hn.
Defined.

Lemma run_hook_order_witness :
  process [demo_hda; demo_failing; demo_hda]
  = (Raise (RuntimeError "invalid"),
     path <$> filter (fun m => has_hook "pyblish_validate" m = true)
                ([demo_hda] ++ [demo_failing])).
Proof.
  apply (proj2 (run_hook_order "pyblish_validate" [demo_hda; demo_failing; demo_hda])
           [demo_hda] demo_failing [demo_hda] (RuntimeError "invalid")).
  - reflexivity.
  - intros m e' Hm.
    repeat (apply elem_of_cons in Hm as [->|Hm]);
      try (vm_compute; discriminate); by apply elem_of_nil in Hm.
  - vm_compute. reflexivity.
Defined.

End PyblishNodes.

(** * Further scenarios *)

(** An editable node with overrides: the asset type is overridden, the
    menus below it are not. *)
Definition override_node : Node :=
  node_of [("override_asset_type", PyInt 1); ("override_asset", PyInt 0);
           ("override_step", PyInt 0); ("override_task", PyInt 0);
           ("asset_type", PyStr "Character"); ("asset", PyStr "12");
           ("step", PyStr "3"); ("task", PyStr "7"); ("template", PyStr "usd_asset_publish")]
          true
          [("template", mkMenu ["usd_asset_publish"; "Asset (usd_asset_publish)"] PyNone);
           ("asset_type", mkMenu ["Character"; "Character"] PyNone);
           ("asset", mkMenu ["12"; "hero"] PyNone);
           ("step", mkMenu ["3"; "anim"] PyNone);
           ("task", mkMenu ["7"; "animation"] PyNone)].

(** A publish node in asset mode with task 7 selected. *)
Definition asset_publish_node : Node :=
  mkNode (list_to_map [("template", PyStr "usd_asset_publish");
                       ("task", PyStr "7"); ("savestyle", PyStr "")])
         true
         (list_to_map
            [("template",
              mkMenu ["usd_asset_publish"; "Asset (usd_asset_publish)"]
                     (PyStr "usd_asset_publish"));
             ("task", mkMenu ["7"; "animation"] (PyStr "7"))])
         [PyStr "usd_asset_publish"] [] false PyNone PyNone PyNone [].

(** A globals node that declares an asset context. *)
Definition asset_globals : gmap string PyVal :=
  list_to_map [("context", PyStr "asset"); ("task", PyStr "model");
               ("asset", PyStr "hero")].

Definition context_asset_globals : Context :=
  mkContext (node_of [("override_custom_taskid", PyInt 0)] true [])
            (Some asset_globals) [asset_globals] "/jobs/show/assets/hero/model.hip".

(** A template service that knows every template. *)
Definition every_template : list PyVal -> option Exc := fun _ => None.

Definition demo_variant_name : Z -> PyVal := fun _ => PyStr "base".

Lemma generate_menu_frame_witness :
  let st' := snd (generate_menu no_context "asset_type" two_asset_types "name" "name"
                    false false locked_known_type) in
  parms st' = parms locked_known_type /\ trace st' = trace locked_known_type.
Proof.
  pose proof (generate_menu_frame no_context "asset_type" two_asset_types
                "name" "name" false false locked_known_type (Ok tt)
                (snd (generate_menu no_context "asset_type" two_asset_types
                        "name" "name" false false locked_known_type))) as H.
  destruct H as (_ & _ & _ & _ & _ & _ & _ & _ & H); [vm_compute; reflexivity|].
  apply H. reflexivity.
Defined.

Lemma generate_menu_value_in_keys_witness :
  let st' := snd (generate_menu no_context "asset" (demo_assets PyNone) "id" "code"
                    false false asset_selected) in
  exists k,
    value (mkMenu ["12"; "hero"] (PyStr "12")) = PyStr k
    /\ k ∈ evens (menu (mkMenu ["12"; "hero"] (PyStr "12")))
    /\ (editable asset_selected = true -> parms st' !! "asset" = Some (PyStr k)).
Proof.
  apply (generate_menu_value_in_keys no_context "asset" (demo_assets PyNone)
           "id" "code" false false asset_selected);
    [vm_compute; reflexivity | vm_compute; reflexivity | discriminate].
Defined.

Lemma generate_menu_editable_entries_witness :
  exists m',
    menus (snd (generate_menu no_context "asset" (demo_assets PyNone) "id" "code"
                  true false asset_selected)) !! "asset" = Some m'
    /\ evens (menu m')
       = (fun item => py_str (dict_get item "id")) <$> rev (demo_assets PyNone)
    /\ length (menu m') = (2 * length (demo_assets PyNone))%nat.
Proof.
  apply (generate_menu_editable_entries no_context "asset" (demo_assets PyNone)
           "id" "code" true false asset_selected);
    [reflexivity | vm_compute; reflexivity].
Defined.

Lemma get_selection_falls_back_witness :
  get_selection no_context "asset_type" false (stale_node true) = Ok (PyStr "Retired").
Proof.
  apply (proj2 (get_selection_falls_back no_context "asset_type" false
                  (stale_node true) (mkMenu ["Retired"; "Retired"] PyNone)
                  "Retired" ["Retired"] eq_refl eq_refl) (PyStr ""));
    [reflexivity | left; reflexivity | reflexivity].
Defined.


Lemma cascade_frame_witness :
  let s' := snd (demo_asset_cascade (stale_node true)) in
  menus s' !! "sequence" = menus (stale_node true) !! "sequence"
  /\ parms s' !! "sequence" = parms (stale_node true) !! "sequence".
Proof.
  apply (proj1 (cascade_frame no_context demo_asset_types demo_assets
                  demo_asset_steps demo_asset_tasks [] demo_assets demo_assets
                  demo_asset_tasks demo_versions (PyStr "usd") false
                  (stale_node true) (fst (demo_asset_cascade (stale_node true)))
                  (snd (demo_asset_cascade (stale_node true))))).
  - vm_compute. reflexivity.
  - unfold asset_chain. intros H.
    repeat (apply elem_of_cons in H as [H|H]; [discriminate H|]).
    by apply elem_of_nil in H.
Defined.

Lemma task_id_from_globals_never_resolves_witness :
  raw_task_id demo_asset_id_from_name demo_shot_id_from_name
    demo_task_id_from_name demo_task_id_from_path context_asset_globals = Ok PyNone
  \/ exists e,
       raw_task_id demo_asset_id_from_name demo_shot_id_from_name
         demo_task_id_from_name demo_task_id_from_path context_asset_globals
       = Raise e.
Proof.
  apply (proj2 (task_id_from_globals_never_resolves demo_asset_id_from_name
                  demo_shot_id_from_name demo_task_id_from_name
                  demo_task_id_from_path context_asset_globals) PyNone);
    [reflexivity | reflexivity | discriminate].
Defined.

Lemma task_id_from_globals_unbound_witness :
  task_id_from_globals demo_asset_id_from_name demo_shot_id_from_name
    demo_task_id_from_name context_asset_globals = Raise UnboundLocalError.
Proof.
  apply (task_id_from_globals_unbound demo_asset_id_from_name
           demo_shot_id_from_name demo_task_id_from_name context_asset_globals
           asset_globals asset_globals (PyStr "asset") (PyStr "model") (PyStr "hero"));
    [reflexivity | reflexivity | reflexivity | reflexivity | left; split; reflexivity].
Defined.

Lemma task_id_from_custom_cases_witness :
  task_id_from_custom context_custom_5 = Ok (PyInt 5)
  /\ task_id_from_custom context_path_only = Ok PyNone.
Proof.
  split.
  - apply (proj2 (proj2 (proj2 (task_id_from_custom_cases context_custom_5)
                           (PyInt 1) eq_refl)) (PyStr "5") 5); reflexivity.
  - apply (proj1 (proj2 (task_id_from_custom_cases context_path_only)
                    (PyInt 0) eq_refl)). reflexivity.
Defined.

Lemma update_output_path_keeps_root_witness :
  output_consistent
    (snd (update_output_path no_context every_template demo_next_version
            demo_output_path (shot_publish_node "77"))).
Proof.
  apply (update_output_path_keeps_root no_context every_template demo_next_version
           demo_output_path (shot_publish_node "77")
           (fst (update_output_path no_context every_template demo_next_version
                   demo_output_path (shot_publish_node "77")))).
  - left. split; reflexivity.
  - vm_compute. reflexivity.
Defined.

Lemma update_output_path_stops_early_witness :
  update_output_path no_context every_template demo_next_version demo_output_path
    (shot_publish_node "")
  = (Ok tt,
     emit (ValidateTemplateList [PyStr "usd_shot_publish"]) (shot_publish_node "")).
Proof.
  apply (proj1 (proj2 (update_output_path_stops_early no_context every_template
                         demo_next_version demo_output_path (shot_publish_node "")
                         (PyStr "usd_shot_publish") eq_refl eq_refl)) PyNone);
    reflexivity.
Defined.

Lemma configure_menus_cascades_witness :
  exists st',
    configure_menus (Some "asset_type") override_node = (Ok tt, st')
    /\ parms st' !! "override_step" = Some (PyInt 1).
Proof.
  destruct (configure_menus_cascades (Some "asset_type") override_node
              "asset_type" ["asset"; "step"; "task"])
    as (st' & Hrun & Hdown); [reflexivity | vm_compute; reflexivity |].
  exists st'. split; [exact Hrun|].
  apply (Hdown "step" (PyInt 0)); [|reflexivity].
  apply list_elem_of_further, list_elem_of_here.
Defined.

Lemma configure_menus_frame_witness :
  exists st',
    configure_menus (Some "asset_type") (stale_node false) = (Ok tt, st')
    /\ st' = stale_node false.
Proof.
  destruct (configure_menus_frame (Some "asset_type") (stale_node false))
    as (st' & Hrun & _ & _ & _ & _ & Hsame).
  exists st'. split; [exact Hrun|]. apply Hsame. left. reflexivity.
Defined.

Lemma invalid_context_cases_witness :
  invalid_context demo_asset_id_from_name demo_shot_id_from_name
    demo_task_id_from_name demo_task_id_from_path true (fun _ => false)
    context_bad_custom = Ok false.
Proof.
  apply (proj1 (invalid_context_cases demo_asset_id_from_name
                  demo_shot_id_from_name demo_task_id_from_name
                  demo_task_id_from_path true (fun _ => false) context_bad_custom)).
  reflexivity.
Defined.

Lemma context_message_cases_witness :
  (exists z,
     task_id_from_custom context_custom_5 = Ok (PyInt z)
     /\ (if (fun _ : PyVal => true) (PyInt z)
         then "Context from custom task ID: 5"
              = "Context from custom task ID: " +:+ py_str (PyInt z)
         else "Context from custom task ID: 5" = no_context_message))
  \/ (task_id_from_custom context_custom_5 = Ok PyNone
      /\ task_id_from_globals demo_asset_id_from_name demo_shot_id_from_name
           demo_task_id_from_name context_custom_5 = Ok PyNone
      /\ (if (negb (bool_decide (demo_task_id_from_path (hip_path context_custom_5)
                                 = PyNone))
              && (fun _ : PyVal => true)
                   (demo_task_id_from_path (hip_path context_custom_5)))%bool
          then "Context from custom task ID: 5"
               = "Context from scene path: " +:+ hip_path context_custom_5
          else "Context from custom task ID: 5" = no_context_message)).
Proof.
  apply (context_message_cases demo_asset_id_from_name demo_shot_id_from_name
           demo_task_id_from_name demo_task_id_from_path (fun _ => true)
           (fun _ => "/obj/global") context_custom_5
           "Context from custom task ID: 5").
  vm_compute. reflexivity.
Defined.




Lemma update_save_default_settles_witness :
  let pn' := snd (update_save_default no_context
                    (mkPublishNode asset_publish_node PyNone)) in
  selected_template (publish_base pn') = Ok (save_context pn')
  /\ update_save_default no_context pn' = (Ok tt, pn').
Proof.
  apply (proj1 (update_save_default_settles no_context
                  (mkPublishNode asset_publish_node PyNone)
                  (snd (update_save_default no_context
                          (mkPublishNode asset_publish_node PyNone)))
                  (Ok tt) ltac:(vm_compute; reflexivity))).
  reflexivity.
Defined.

Lemma hip_modes_exclusive_witness :
  xorb (hip_asset_mode (fun _ _ => Some "houdini_shot_work") "/jobs/show/sh010/fx.hip")
       (hip_shot_mode (fun _ _ => Some "houdini_shot_work") "/jobs/show/sh010/fx.hip")
  = true.
Proof.
  apply (proj2 (proj2 (hip_modes_exclusive (fun _ _ => Some "houdini_shot_work")
                         "/jobs/show/sh010/fx.hip")) "houdini_shot_work");
    [reflexivity|].
  unfold hip_templates. do 2 apply list_elem_of_further. apply list_elem_of_here.
Defined.

(** The same node with a task that is no number. *)
Definition asset_publish_bad_task : Node :=
  with_parms (insert "task" (PyStr "abc")) asset_publish_node.

Lemma auto_generate_asset_usd_cases_witness :
  auto_generate_asset_usd no_context demo_variant_name demo_shot_id_from_task_id
    asset_publish_node
  = (Ok tt, [(demo_shot_id_from_task_id 7, demo_variant_name 7)])
  /\ auto_generate_asset_usd no_context demo_variant_name demo_shot_id_from_task_id
       asset_publish_bad_task
     = (Raise ValueError, []).
Proof.
  split.
  - apply (proj1 (auto_generate_asset_usd_cases no_context demo_variant_name
                    demo_shot_id_from_task_id asset_publish_node) (PyStr "7") 7);
      reflexivity.
  - apply (proj1 (proj2 (auto_generate_asset_usd_cases no_context demo_variant_name
                           demo_shot_id_from_task_id asset_publish_bad_task))
             (PyStr "abc") ValueError);
      reflexivity.
Defined.
